(** * importer/helpers/dagbuilder.go: the DAG builder helper

    A shallow embedding of [DagBuilderHelper]: the one-chunk lookahead over
    a [chunker.Splitter] ([prepareNext], [Done], [Next]), the leaf factory
    ([NewUnixfsNode], [NewLeaf], [newUnixfsBlock], [GetNextDataNode]) and
    the layer filler ([FillNodeLayer]).

    Go values are modelled as follows.
    - [[]byte] is [slice]: [None] is the nil slice, [Some l] a non-nil
      slice (possibly of length zero).  The code tests [data == nil] and
      [db.nextData != nil], so the two are kept apart.
    - [error] is [option error], [None] being the nil error.
    - [int] is [Z]; no operation of this file can overflow.
    - a pointer that may be nil is an [option]; dereferencing nil is the
      outcome [NilDeref].
    - a method with a pointer receiver that mutates the receiver returns
      the new receiver next to its result. *)

From Stdlib.Strings Require Import Byte String.
From Stdlib Require Import ZArith List Bool Lia.
Import ListNotations.
Open Scope Z_scope.

(** ** Go values *)

Definition bytes := list byte.
Definition slice := option bytes.

(** [len(data)]: zero on the nil slice. *)
Definition len (data : slice) : Z :=
  match data with
  | None => 0
  | Some l => Z.of_nat (length l)
  end.

(** The bytes a slice holds. *)
Definition contents (data : slice) : bytes :=
  match data with
  | None => []
  | Some l => l
  end.

(** The errors the builder tells apart: [io.EOF], the package's
    [ErrSizeLimitExceeded], and any other error (a read failure of the
    splitter, a failure of the store or of the hash function). *)
Inductive error : Type :=
| EOF
| ErrSizeLimitExceeded
| Err (msg : string).

(** What the execution of a loop comes to: it returns, it dereferences a
    nil pointer (a Go panic), or the fuel of the model ran out. *)
Inductive outcome (A : Type) : Type :=
| Returns (a : A)
| NilDeref
| OutOfFuel.
Arguments Returns {A} a.
Arguments NilDeref {A}.
Arguments OutOfFuel {A}.

(** ** The chunk source: [chunker.Splitter]

    An interface of an external package.  [NextBytes() ([]byte, error)]
    answers with a slice and an error, and moves the splitter on. *)

Definition response := (slice * option error)%type.

Class Splitter (S : Type) := NextBytes : S -> response * S.

(** A splitter that plays a script of answers, and answers [(nil, io.EOF)]
    once the script is over. *)
#[export] Instance script : Splitter (list response) :=
  fun s => match s with
           | [] => ((None, Some EOF), [])
           | r :: s' => (r, s')
           end.

(** The answer of a splitter that delivers the chunk [c]. *)
Definition chunk (c : bytes) : response := (Some c, None).

(** The splitter over a stream already cut into [chunks]. *)
Definition chunked (chunks : list bytes) : list response := map chunk chunks.

(** The splitter after [n] pulls. *)
Fixpoint pulls {S : Type} `{Splitter S} (n : nat) (s : S) : S :=
  match n with
  | O => s
  | Datatypes.S n' => pulls n' (snd (NextBytes s))
  end.

(** An answer that leaves the lookahead empty: no chunk, and no error or
    [io.EOF]. *)
Definition isEnd (r : response) : bool :=
  match r with
  | (None, None) => true
  | (None, Some EOF) => true
  | _ => false
  end.

(** The splitter answers every pull to come with the end of the stream. *)
Definition AllEnd {S : Type} `{Splitter S} (s : S) : Prop :=
  forall n, isEnd (fst (NextBytes (pulls n s))) = true.

(** The end of the stream is final: if the splitter answers the next pull
    with the end of the stream, it answers every later pull with it. *)
Definition EndIsFinal {S : Type} `{Splitter S} (s : S) : Prop :=
  isEnd (fst (NextBytes s)) = true -> AllEnd s.

(** ** Nodes *)

(** [cid.Prefix] (external package go-cid). *)
Record Prefix : Type := {
  Version : Z;
  Codec : Z;
  MhType : Z;
  MhLength : Z
}.

(** The type tag of [ft.FSNode] (package unixfs). *)
Inductive FSType : Type :=
| TRaw
| TDirectory
| TFile
| TMetadata
| TSymlink.

(** [ft.FSNode]: the file-format envelope of a wrapped node, with the
    sizes of the subtrees of its children. *)
Record FSNode : Type := {
  Type_ : FSType;
  Data : slice;
  blocksizes : list Z
}.

(** [dag.RawNode]: a block that is exactly its bytes. *)
Record RawNode : Type := {
  RawData : slice;
  RawPrefix : option Prefix
}.

(** Modelled from the spec: the declaration of [UnixfsNode] and
    [dag.ProtoNode] (helpers.go and package merkledag are not part of the
    sources at hand).  The fields of [UnixfsNode] are the ones
    dagbuilder.go writes.  A child reference is a content identifier with
    the size of the subtree it roots; the content identifier, which names
    the content of one node, is modelled by the node it names. *)
Inductive UnixfsNode : Type := Build_UnixfsNode {
  raw : bool;
  rawnode : option RawNode;
  node : option ProtoNode;
  ufmt : option FSNode
}
with ProtoNode : Type := Build_ProtoNode {
  links : list Link;
  NodePrefix : option Prefix
}
with Link : Type := Build_Link {
  Size : Z;
  Cid : UnixfsNode
}.

(** [new(dag.ProtoNode)] *)
Definition newProtoNode : ProtoNode :=
  {| links := []; NodePrefix := None |}.

(** Modelled from the spec: [UnixfsNode.SetPrefix] (helpers.go) attaches
    the configured content-addressing prefix to the node; nil leaves the
    default of the store.  It is only called on a node just built with its
    [ProtoNode]. *)
Definition SetPrefix (n : UnixfsNode) (prefix : option Prefix) : UnixfsNode :=
  match node n with
  | None => n
  | Some p =>
      {| raw := raw n; rawnode := rawnode n;
         node := Some {| links := links p; NodePrefix := prefix |};
         ufmt := ufmt n |}
  end.

(** Modelled from the spec: [UnixfsNode.SetData] (helpers.go) stores the
    bytes in the envelope.  It is only called on a node just built with
    its envelope. *)
Definition SetData (n : UnixfsNode) (data : slice) : UnixfsNode :=
  match ufmt n with
  | None => n
  | Some f =>
      {| raw := raw n; rawnode := rawnode n; node := node n;
         ufmt := Some {| Type_ := Type_ f; Data := data;
                         blocksizes := blocksizes f |} |}
  end.

(** Modelled from the spec: [UnixfsNode.NumChildren] (helpers.go), the
    length of the sequence of child references; a node without one has no
    children. *)
Definition NumChildren (n : UnixfsNode) : Z :=
  match node n with
  | None => 0
  | Some p => Z.of_nat (length (links p))
  end.

(** The children of a node, in the order they were appended. *)
Definition children (n : UnixfsNode) : list UnixfsNode :=
  match node n with
  | None => []
  | Some p => map Cid (links p)
  end.

(** The byte payload of a leaf: the bytes of the raw block, or the bytes
    the envelope carries. *)
Definition payload (n : UnixfsNode) : bytes :=
  if raw n then
    match rawnode n with
    | None => []
    | Some r => contents (RawData r)
    end
  else
    match ufmt n with
    | None => []
    | Some f => contents (Data f)
    end.

(** Modelled from the spec: [UnixfsNode.FileSize] (helpers.go), the
    aggregate size of the subtree a node roots. *)
Definition FileSize (n : UnixfsNode) : Z :=
  if raw n then
    match rawnode n with
    | None => 0
    | Some r => len (RawData r)
    end
  else
    match ufmt n with
    | None => 0
    | Some f => len (Data f) + fold_right Z.add 0 (blocksizes f)
    end.

(** A node that can take children: it has its child references and its
    envelope. *)
Definition isInternal (n : UnixfsNode) : bool :=
  match node n, ufmt n with
  | Some _, Some _ => true
  | _, _ => false
  end.

(** ** The store *)

(** [ipld.DAGService] is an interface of an external package; the builder
    only sees whether a write fails.  A store is the list of its answers
    to the writes to come; once the list is over every write succeeds. *)
Definition DAGService := list (option error).

(** [ipld.Batch]: the nodes staged for a write, over a store. *)
Record Batch : Type := {
  staged : list UnixfsNode;
  dserv : DAGService
}.

(** [ipld.NewBatch] *)
Definition NewBatch (ds : DAGService) : Batch :=
  {| staged := []; dserv := ds |}.

(** Modelled from the spec: [Batch.Add] stages the node for a future
    write, and surfaces the failure of the store, if any. *)
Definition Batch_Add (b : Batch) (nd : UnixfsNode) : option error * Batch :=
  match dserv b with
  | [] => (None, {| staged := staged b ++ [nd]; dserv := [] |})
  | None :: ds => (None, {| staged := staged b ++ [nd]; dserv := ds |})
  | Some e :: ds => (Some e, {| staged := staged b; dserv := ds |})
  end.

(** ** The package *)

(** What dagbuilder.go takes from outside its file: the package variable
    [BlockSizeLimit] (helpers.go), and the error, if any, that hashing a
    block under a prefix reports ([cid.Prefix.Sum], through
    [dag.NewRawNodeWPrefix]). *)
Class Package : Type := {
  BlockSizeLimit : Z;
  sumError : slice -> Prefix -> option error
}.

(** [dag.NewRawNode]: a raw block under the default prefix. *)
Definition NewRawNode (data : slice) : RawNode :=
  {| RawData := data; RawPrefix := None |}.

(** Modelled from the spec: [dag.NewRawNodeWPrefix] builds the raw block
    tagged with the configured prefix, unless hashing fails. *)
Definition NewRawNodeWPrefix `{Package} (data : slice) (prefix : Prefix)
  : option RawNode * option error :=
  match sumError data prefix with
  | Some e => (None, Some e)
  | None => (Some {| RawData := data; RawPrefix := Some prefix |}, None)
  end.

(** ** The builder *)

Section Builder.

Context {S : Type} `{Splitter S} `{Package}.

(** [DagBuilderHelper].  The fields [fullPath] and [stat] only feed
    [SetPosInfo] and are left out; [dserv] is reached through [batch]. *)
Record DagBuilderHelper : Type := {
  spl : S;
  recvdErr : option error;
  rawLeaves : bool;
  nextData : slice;
  maxlinks : Z;
  batch : Batch;
  prefix : option Prefix
}.

(** [DagBuilderParams]; [PrefixParam] is its field [Prefix]. *)
Record DagBuilderParams : Type := {
  Maxlinks : Z;
  RawLeaves : bool;
  PrefixParam : option Prefix;
  Dagserv : DAGService
}.

(** [func (dbp *DagBuilderParams) New(spl chunker.Splitter)].  The
    lookahead starts empty.  The [NoCopy] branch only sets [fullPath] and
    [stat] and is left out with them. *)
Definition New (dbp : DagBuilderParams) (s : S) : DagBuilderHelper :=
  {| spl := s;
     recvdErr := None;
     rawLeaves := RawLeaves dbp;
     nextData := None;
     maxlinks := Maxlinks dbp;
     batch := NewBatch (Dagserv dbp);
     prefix := PrefixParam dbp |}.

(** Assignments to the fields of [db]. *)
Definition set_pull (db : DagBuilderHelper) (d : slice) (e : option error)
  (s : S) : DagBuilderHelper :=
  {| spl := s; recvdErr := e; rawLeaves := rawLeaves db; nextData := d;
     maxlinks := maxlinks db; batch := batch db; prefix := prefix db |}.

Definition set_recvdErr (db : DagBuilderHelper) (e : option error)
  : DagBuilderHelper :=
  set_pull db (nextData db) e (spl db).

Definition set_nextData (db : DagBuilderHelper) (d : slice)
  : DagBuilderHelper :=
  set_pull db d (recvdErr db) (spl db).

Definition set_batch (db : DagBuilderHelper) (b : Batch) : DagBuilderHelper :=
  {| spl := spl db; recvdErr := recvdErr db; rawLeaves := rawLeaves db;
     nextData := nextData db; maxlinks := maxlinks db; batch := b;
     prefix := prefix db |}.

(** [func (db *DagBuilderHelper) prepareNext()] *)
Definition prepareNext (db : DagBuilderHelper) : DagBuilderHelper :=
  match nextData db, recvdErr db with
  | None, None =>
      let '((d, e), s) := NextBytes (spl db) in
      let db := set_pull db d e s in
      match recvdErr db with
      | Some EOF => set_recvdErr db None
      | _ => db
      end
  | _, _ => db
  end.

(** [func (db *DagBuilderHelper) Done() bool] *)
Definition Done (db : DagBuilderHelper) : bool * DagBuilderHelper :=
  let db := prepareNext db in
  match recvdErr db with
  | Some _ => (false, db)
  | None =>
      (match nextData db with None => true | Some _ => false end, db)
  end.

(** [func (db *DagBuilderHelper) Next() ([]byte, error)] *)
Definition Next (db : DagBuilderHelper)
  : (slice * option error) * DagBuilderHelper :=
  let db := prepareNext db in
  let d := nextData db in
  let db := set_nextData db None in
  match recvdErr db with
  | Some e => ((None, Some e), db)
  | None => ((d, None), db)
  end.

(** [func (db *DagBuilderHelper) NewUnixfsNode() *UnixfsNode] *)
Definition NewUnixfsNode (db : DagBuilderHelper) : UnixfsNode :=
  let n := {| raw := false; rawnode := None;
              node := Some newProtoNode;
              ufmt := Some {| Type_ := TFile; Data := None;
                              blocksizes := [] |} |} in
  SetPrefix n (prefix db).

(** [func (db *DagBuilderHelper) newUnixfsBlock() *UnixfsNode] *)
Definition newUnixfsBlock (db : DagBuilderHelper) : UnixfsNode :=
  let n := {| raw := false; rawnode := None;
              node := Some newProtoNode;
              ufmt := Some {| Type_ := TRaw; Data := None;
                              blocksizes := [] |} |} in
  SetPrefix n (prefix db).

(** [func (db *DagBuilderHelper) NewLeaf(data []byte)], returning a node
    pointer and an error.  The size check comes first, in either mode.
    Without raw leaves the nil slice gets the node of [NewUnixfsNode],
    tagged [TFile], and a non-nil slice the node of [newUnixfsBlock],
    tagged [TRaw] (the Go doc comment names TRaw for both). *)
Definition NewLeaf (db : DagBuilderHelper) (data : slice)
  : option UnixfsNode * option error :=
  if len data >? BlockSizeLimit then (None, Some ErrSizeLimitExceeded)
  else if rawLeaves db then
    match prefix db with
    | None =>
        (Some {| raw := true; rawnode := Some (NewRawNode data);
                 node := None; ufmt := None |}, None)
    | Some p =>
        match NewRawNodeWPrefix data p with
        | (_, Some err) => (None, Some err)
        | (r, None) =>
            (Some {| raw := true; rawnode := r;
                     node := None; ufmt := None |}, None)
        end
    end
  else
    match data with
    | None => (Some (NewUnixfsNode db), None)
    | Some _ =>
        let blk := newUnixfsBlock db in
        let blk := SetData blk data in
        (Some blk, None)
    end.

(** [func (db *DagBuilderHelper) GetNextDataNode()], returning a node
    pointer and an error. *)
Definition GetNextDataNode (db : DagBuilderHelper)
  : (option UnixfsNode * option error) * DagBuilderHelper :=
  let '((data, err), db) := Next db in
  match err with
  | Some e => ((None, Some e), db)
  | None =>
      match data with
      | None => ((None, None), db)
      | Some _ => (NewLeaf db data, db)
      end
  end.

(** Modelled from the spec: [UnixfsNode.AddChild] (helpers.go) computes
    and stores the size of the subtree of the child, appends the reference
    to the child after the ones the node holds, and stages the child with
    the write batcher, whose failure it returns.  The node and the child
    are pointers the method dereferences. *)
Definition AddChild (n : UnixfsNode) (child : option UnixfsNode)
  (db : DagBuilderHelper)
  : outcome (option error * UnixfsNode * DagBuilderHelper) :=
  match child, node n, ufmt n with
  | Some c, Some p, Some f =>
      let size := FileSize c in
      let n' :=
        {| raw := raw n; rawnode := rawnode n;
           node := Some {| links := links p ++ [{| Size := size; Cid := c |}];
                           NodePrefix := NodePrefix p |};
           ufmt := Some {| Type_ := Type_ f; Data := Data f;
                           blocksizes := blocksizes f ++ [size] |} |} in
      let '(err, b) := Batch_Add (batch db) c in
      Returns (err, n', set_batch db b)
  | _, _, _ => NilDeref
  end.

(** The loop of [FillNodeLayer]; [fuel] bounds the number of times the
    condition is evaluated. *)
Fixpoint FillNodeLayer_loop (fuel : nat) (db : DagBuilderHelper)
  (n : UnixfsNode)
  : outcome (option error * UnixfsNode * DagBuilderHelper) :=
  match fuel with
  | O => OutOfFuel
  | Datatypes.S fuel' =>
      if NumChildren n <? maxlinks db then
        let '(done, db) := Done db in
        if negb done then
          let '((child, err), db) := GetNextDataNode db in
          match err with
          | Some e => Returns (Some e, n, db)
          | None =>
              match AddChild n child db with
              | Returns (Some e, n, db) => Returns (Some e, n, db)
              | Returns (None, n, db) => FillNodeLayer_loop fuel' db n
              | NilDeref => NilDeref
              | OutOfFuel => OutOfFuel
              end
          end
        else Returns (None, n, db)
      else Returns (None, n, db)
  end.

(** [func (db *DagBuilderHelper) FillNodeLayer(node *UnixfsNode) error].
    The node gains a child each time round the loop, so the condition is
    evaluated at most [maxlinks - NumChildren + 1] times
    ([FillNodeLayer_loop_fuel] below: more fuel changes nothing). *)
Definition FillNodeLayer (db : DagBuilderHelper) (n : UnixfsNode)
  : outcome (option error * UnixfsNode * DagBuilderHelper) :=
  FillNodeLayer_loop (Datatypes.S (Z.to_nat (maxlinks db - NumChildren n)))
    db n.

(** The caller of the layer filler: as long as the builder is not done,
    it fills a new node ([for !db.Done() { n := db.NewUnixfsNode();
    db.FillNodeLayer(n) }]), and stops at the first error.  It returns the
    nodes it filled, in order. *)
Fixpoint fillLayers (fuel : nat) (db : DagBuilderHelper)
  : outcome (option error * list UnixfsNode * DagBuilderHelper) :=
  match fuel with
  | O => OutOfFuel
  | Datatypes.S fuel' =>
      let '(done, db) := Done db in
      if done then Returns (None, [], db)
      else
        match FillNodeLayer db (NewUnixfsNode db) with
        | Returns (Some e, n, db) => Returns (Some e, [n], db)
        | Returns (None, n, db) =>
            match fillLayers fuel' db with
            | Returns (e, ns, db) => Returns (e, n :: ns, db)
            | NilDeref => NilDeref
            | OutOfFuel => OutOfFuel
            end
        | NilDeref => NilDeref
        | OutOfFuel => OutOfFuel
        end
  end.

(** The payloads of the leaves under the nodes [ns], in child order. *)
Definition leafPayloads (ns : list UnixfsNode) : list bytes :=
  map payload (flat_map children ns).

(** ** Sequences of calls *)

(** The builder after [n] calls of [Done]. *)
Fixpoint DoneTimes (n : nat) (db : DagBuilderHelper) : DagBuilderHelper :=
  match n with
  | O => db
  | Datatypes.S n' => DoneTimes n' (snd (Done db))
  end.

(** The builder after [n] calls of [Next]. *)
Fixpoint NextTimes (n : nat) (db : DagBuilderHelper) : DagBuilderHelper :=
  match n with
  | O => db
  | Datatypes.S n' => NextTimes n' (snd (Next db))
  end.

(** The calls a layout makes on the lookahead. *)
Inductive call : Type :=
| CallDone
| CallNext
| CallGetNextDataNode.

(** The builder after one call. *)
Definition after (c : call) (db : DagBuilderHelper) : DagBuilderHelper :=
  match c with
  | CallDone => snd (Done db)
  | CallNext => snd (Next db)
  | CallGetNextDataNode => snd (GetNextDataNode db)
  end.

(** The builder after a sequence of calls. *)
Definition afterAll (cs : list call) (db : DagBuilderHelper)
  : DagBuilderHelper :=
  fold_left (fun db c => after c db) cs db.

(** The lookahead holds nothing: no chunk and no pending error. *)
Definition isEmpty (db : DagBuilderHelper) : bool :=
  match nextData db, recvdErr db with
  | None, None => true
  | _, _ => false
  end.

(** The builder is drained: the lookahead holds nothing and the splitter
    has nothing more to give. *)
Definition Drained (db : DagBuilderHelper) : Prop :=
  isEmpty db = true /\ AllEnd (spl db).

(** The chunks ahead of a builder over a [chunked] stream: the one the
    lookahead holds, then those left in the splitter. *)
Definition buffered (db : DagBuilderHelper) : list bytes :=
  match nextData db with
  | None => []
  | Some c => [c]
  end.

End Builder.

(** ** Concrete builders, for the examples *)

(** The package with a block size limit of 4 bytes and a hash function
    that does not fail. *)
Definition pkg4 : Package :=
  {| BlockSizeLimit := 4; sumError := fun _ _ => None |}.

(** The bytes of a string literal. *)
Definition str (s : string) : bytes := list_byte_of_string s.

(** Parameters with at most two links per node, the default prefix and a
    store that does not fail. *)
Definition params2 (rawLeaves : bool) : DagBuilderParams :=
  {| Maxlinks := 2; RawLeaves := rawLeaves; PrefixParam := None;
     Dagserv := [] |}.

(** The ten bytes ABCDEFGHIJ cut into chunks of at most four bytes. *)
Definition abc_chunks : list bytes := [str "ABCD"; str "EFGH"; str "IJ"].

(** A builder over a scripted splitter, in the package [pkg4]. *)
Definition builder (rawLeaves : bool) (s : list response)
  : @DagBuilderHelper (list response) :=
  @New (list response) (params2 rawLeaves) s.

(** A read failure of the splitter. *)
Definition readFailure : error := Err "read failure".

(** A splitter that reports the end of the stream and delivers a chunk
    afterwards. *)
Definition resumes : list response :=
  [(None, Some EOF); chunk (str "A")].

(** A splitter that fails and would deliver a chunk afterwards. *)
Definition failsThenDelivers : list response :=
  [(None, Some readFailure); chunk (str "A")].

(** A splitter that answers one pull with a chunk and a failure at once. *)
Definition chunkWithFailure : list response :=
  [(Some (str "AB"), Some readFailure); chunk (str "CD")].

(** The builder of the example: ABCDEFGHIJ in three chunks, two links per
    node. *)
Definition abc_builder (rawLeaves : bool) : @DagBuilderHelper (list response) :=
  builder rawLeaves (chunked abc_chunks).

(** A node that holds two children: the first node the example fills. *)
Definition abc_first_node : UnixfsNode :=
  match @FillNodeLayer _ script pkg4 (abc_builder false)
          (NewUnixfsNode (abc_builder false)) with
  | Returns (_, n, _) => n
  | _ => NewUnixfsNode (abc_builder false)
  end.

(** ** Builders over a stream cut into chunks *)

(** The chunks [cs] are ahead of the builder: no error is pending, and
    [cs] is the chunk the lookahead holds, if any, followed by the chunks
    the splitter has yet to deliver. *)
Definition ChunksAhead (db : @DagBuilderHelper (list response))
  (cs : list bytes) : Prop :=
  recvdErr db = None /\
  exists rest, spl db = chunked rest /\ cs = buffered db ++ rest.

(** Neither the store nor the hash function fails on the builder. *)
Definition Reliable `{Package} (db : @DagBuilderHelper (list response))
  : Prop :=
  Forall (fun a => a = None) (dserv (batch db)) /\
  forall p d, prefix db = Some p -> sumError d p = None.

(** Every chunk is within the block size limit. *)
Definition WithinLimit `{Package} (cs : list bytes) : Prop :=
  Forall (fun c => len (Some c) <= BlockSizeLimit) cs.

(** ** Streams that go on after their chunks *)

(** The chunks [cs] are ahead of the builder and the splitter goes on
    with the answers [tail] after them: no error is pending, and [cs] is
    the chunk the lookahead holds, if any, followed by the chunks the
    splitter delivers before [tail]. *)
Definition Ahead (db : @DagBuilderHelper (list response))
  (cs : list bytes) (tail : list response) : Prop :=
  recvdErr db = None /\
  exists rest, spl db = chunked rest ++ tail /\ cs = buffered db ++ rest.

(** The calls that take an answer out of the lookahead. *)
Definition takes (c : call) : bool :=
  match c with
  | CallDone => false
  | CallNext => true
  | CallGetNextDataNode => true
  end.

(** How many answers a sequence of calls takes out of the lookahead. *)
Definition consumed (cs : list call) : nat := length (filter takes cs).

(** The number of children a node can still take. *)
Definition room {S : Type} (db : @DagBuilderHelper S) (n : UnixfsNode) : nat :=
  Z.to_nat (maxlinks db - NumChildren n).

(** A leaf as the builder makes it for a chunk of the stream: within the
    block size limit and without children; a bare raw block with raw
    leaves, an envelope tagged [TRaw] that carries a non-nil slice
    without. *)
Definition StreamLeaf `{Package} (rawL : bool) (nd : UnixfsNode) : Prop :=
  Z.of_nat (length (payload nd)) <= BlockSizeLimit /\
  children nd = [] /\
  if rawL then
    raw nd = true /\ node nd = None /\ ufmt nd = None
  else
    raw nd = false /\
    ufmt nd =
    Some {| Type_ := TRaw; Data := Some (payload nd); blocksizes := [] |}.

(** A splitter that delivers its last chunk together with [io.EOF]. *)
Definition lastChunkWithEOF : list response :=
  [(Some (str "CD"), Some EOF)].

(** A splitter that answers with nil and a nil error, and one that
    delivers a non-nil chunk of length zero. *)
Definition answersNilNil : list response := [(None, None)].

Definition deliversEmptyChunk : list response := [chunk []].

(** A stream whose second chunk is over the limit of 4 bytes. *)
Definition oversize_chunks : list bytes :=
  [str "AB"; str "ABCDE"; str "CD"].

(** A splitter that delivers a chunk, fails, and would deliver another
    chunk. *)
Definition failsMidStream : list response :=
  [chunk (str "AB"); (None, Some readFailure); chunk (str "CD")].

(** * Properties *)

Section Lookahead.

Context {S : Type} `{Splitter S} `{Package}.

Implicit Types (db : @DagBuilderHelper S) (n : UnixfsNode).

(** ** The lookahead buffer *)

(** A pull leaves the configuration of the builder alone. *)
Lemma prepareNext_frame db :
  rawLeaves (prepareNext db) = rawLeaves db /\
  maxlinks (prepareNext db) = maxlinks db /\
  batch (prepareNext db) = batch db /\
  prefix (prepareNext db) = prefix db.
Proof.
  unfold prepareNext.
  destruct (nextData db), (recvdErr db); auto.
  destruct (NextBytes (spl db)) as [[d e] s].
  destruct e as [[]|]; cbn; auto.
Qed.

(** [prepareNext] does nothing when the lookahead holds a chunk or an
    error. *)
Lemma prepareNext_full db : isEmpty db = false -> prepareNext db = db.
Proof.
  unfold isEmpty, prepareNext.
  destruct (nextData db), (recvdErr db); congruence.
Qed.

(** What [prepareNext] does on an empty lookahead, by the answer of the
    splitter. *)
Lemma prepareNext_empty db d e s :
  isEmpty db = true ->
  NextBytes (spl db) = ((d, e), s) ->
  prepareNext db =
  set_pull db d (match e with Some EOF => None | _ => e end) s.
Proof.
  unfold isEmpty, prepareNext. intros He Hp.
  destruct (nextData db), (recvdErr db); try discriminate.
  rewrite Hp. destruct e as [[]|]; reflexivity.
Qed.

(** [io.EOF] is never stored as the pending error. *)
Lemma prepareNext_not_EOF db :
  recvdErr db <> Some EOF -> recvdErr (prepareNext db) <> Some EOF.
Proof.
  intros Hne. unfold prepareNext.
  destruct (nextData db) eqn:Hd, (recvdErr db) eqn:He; try congruence.
  destruct (NextBytes (spl db)) as [[d e] s].
  destruct e as [[]|]; cbn; congruence.
Qed.

(** [Done] in terms of the lookahead after the pull. *)
Lemma Done_eq db :
  Done db = (isEmpty (prepareNext db), prepareNext db).
Proof.
  unfold Done, isEmpty.
  destruct (recvdErr (prepareNext db)), (nextData (prepareNext db));
    reflexivity.
Qed.

(** [Done] leaves a full lookahead as it is, and answers false. *)
Lemma Done_full db : isEmpty db = false -> Done db = (false, db).
Proof.
  intros Hf. rewrite Done_eq, (prepareNext_full _ Hf), Hf. reflexivity.
Qed.

(** With an error pending and no chunk buffered, [Next] returns the error
    and changes nothing. *)
Lemma Next_pending db e :
  nextData db = None -> recvdErr db = Some e ->
  Next db = ((None, Some e), db).
Proof.
  intros Hd He. unfold Next.
  rewrite prepareNext_full by (unfold isEmpty; rewrite Hd, He; reflexivity).
  destruct db; cbn in *; subst; reflexivity.
Qed.

(** With an error pending, whatever is buffered, [Next] returns the error
    and drops the buffered chunk. *)
Lemma Next_error db e :
  recvdErr db = Some e ->
  Next db = ((None, Some e), set_nextData db None).
Proof.
  intros He. unfold Next.
  rewrite prepareNext_full
    by (unfold isEmpty; rewrite He; destruct (nextData db); reflexivity).
  cbn. rewrite He. reflexivity.
Qed.

End Lookahead.

Section Failures.

Context {S : Type} `{Splitter S} `{Package}.

Implicit Types (db : @DagBuilderHelper S) (n : UnixfsNode).

(** A builder that [Next] leaves as it is stays as it is. *)
Lemma NextTimes_fixed db k : snd (Next db) = db -> NextTimes k db = db.
Proof.
  intros Hfix. induction k as [|k IH]; cbn; [reflexivity|].
  rewrite Hfix. exact IH.
Qed.

(** The builder once a failure has been returned: no chunk, the error
    pending, the splitter where the failing pull left it. *)
Lemma Next_after_failure db d e s :
  isEmpty db = true ->
  NextBytes (spl db) = ((d, Some e), s) ->
  e <> EOF ->
  Next db = ((None, Some e), set_pull db None (Some e) s).
Proof.
  intros Hem Hp Hne. unfold Next.
  rewrite (prepareNext_empty _ _ _ _ Hem Hp).
  destruct e; try congruence; reflexivity.
Qed.

(** With an error pending and no chunk buffered, [Done] answers false and
    changes nothing. *)
Lemma Done_pending db e :
  nextData db = None -> recvdErr db = Some e -> Done db = (false, db).
Proof.
  intros Hd He. apply Done_full. unfold isEmpty. rewrite Hd, He. reflexivity.
Qed.

(** With an error pending and no chunk buffered, [GetNextDataNode] returns
    the error and changes nothing. *)
Lemma GetNextDataNode_pending db e :
  nextData db = None -> recvdErr db = Some e ->
  GetNextDataNode db = ((None, Some e), db).
Proof.
  intros Hd He. unfold GetNextDataNode.
  rewrite (Next_pending _ _ Hd He). reflexivity.
Qed.

(** With an error pending and no chunk buffered, [FillNodeLayer] appends
    nothing and changes nothing. *)
Lemma FillNodeLayer_pending db e n :
  nextData db = None -> recvdErr db = Some e ->
  FillNodeLayer db n =
  Returns (if NumChildren n <? maxlinks db then Some e else None, n, db).
Proof.
  intros Hd He. unfold FillNodeLayer. cbn [FillNodeLayer_loop].
  destruct (NumChildren n <? maxlinks db); [|reflexivity].
  rewrite (Done_pending _ _ Hd He). cbn [negb].
  rewrite (GetNextDataNode_pending _ _ Hd He). reflexivity.
Qed.

(** With an error pending, every call on the lookahead reports it: [Next]
    and [GetNextDataNode] return it and [Done] answers false. *)
Lemma pending_error_results db e :
  recvdErr db = Some e ->
  fst (Next db) = (None, Some e) /\
  fst (GetNextDataNode db) = (None, Some e) /\
  fst (Done db) = false.
Proof.
  intros He.
  assert (Hfull : isEmpty db = false)
    by (unfold isEmpty; rewrite He; destruct (nextData db); reflexivity).
  split; [rewrite (Next_error _ _ He); reflexivity|].
  split.
  - unfold GetNextDataNode. rewrite (Next_error _ _ He). reflexivity.
  - rewrite (Done_full _ Hfull). reflexivity.
Qed.

(** With an error pending, a call on the lookahead leaves the error
    pending and does not pull the splitter. *)
Lemma pending_error_after c db e :
  recvdErr db = Some e ->
  recvdErr (after c db) = Some e /\ spl (after c db) = spl db.
Proof.
  intros He.
  assert (Hfull : isEmpty db = false)
    by (unfold isEmpty; rewrite He; destruct (nextData db); reflexivity).
  destruct c; cbn [after].
  - rewrite (Done_full _ Hfull). auto.
  - rewrite (Next_error _ _ He). auto.
  - unfold GetNextDataNode. rewrite (Next_error _ _ He). auto.
Qed.

(** With an error pending, any sequence of calls on the lookahead leaves
    the error pending and the splitter where it is. *)
Lemma pending_error_afterAll cs : forall db e,
  recvdErr db = Some e ->
  recvdErr (afterAll cs db) = Some e /\ spl (afterAll cs db) = spl db.
Proof.
  induction cs as [|c cs IH]; intros db e He; [auto|].
  cbn [afterAll fold_left]. fold (afterAll cs (after c db)).
  destruct (pending_error_after c _ _ He) as [He' Hs'].
  destruct (IH _ _ He') as [He'' Hs'']. split; congruence.
Qed.

(** The call that makes the failing pull, whichever it is, leaves the
    error pending and the splitter where the pull left it. *)
Lemma failing_pull_after c db d e s :
  isEmpty db = true ->
  NextBytes (spl db) = ((d, Some e), s) ->
  e <> EOF ->
  recvdErr (after c db) = Some e /\ spl (after c db) = s.
Proof.
  intros Hem Hp Hne.
  assert (Hprep : prepareNext db = set_pull db d (Some e) s).
  { rewrite (prepareNext_empty _ _ _ _ Hem Hp).
    destruct e; try congruence; reflexivity. }
  destruct c; cbn [after].
  - rewrite Done_eq, Hprep. auto.
  - rewrite (Next_after_failure _ _ _ _ Hem Hp Hne). auto.
  - unfold GetNextDataNode.
    rewrite (Next_after_failure _ _ _ _ Hem Hp Hne). auto.
Qed.

(** C3, as the code has it.  When the splitter reports a failure other
    than [io.EOF], the failure is permanent.  Whatever calls of [Done],
    [Next] and [GetNextDataNode] are made from then on, in any order and
    any number (the first of them makes the failing pull), the next call
    of [Next] returns that error and no chunk, the next call of
    [GetNextDataNode] returns that error and no node, and the next call
    of [Done] answers false; the error stays pending, however many times
    it has been returned, and the splitter is never pulled again: it
    stays where the failing pull left it. *)
Theorem C3_failure_is_permanent db d e s :
  isEmpty db = true ->
  NextBytes (spl db) = ((d, Some e), s) ->
  e <> EOF ->
  forall cs,
    fst (Next (afterAll cs db)) = (None, Some e) /\
    fst (GetNextDataNode (afterAll cs db)) = (None, Some e) /\
    fst (Done (afterAll cs db)) = false /\
    (cs <> [] ->
     recvdErr (afterAll cs db) = Some e /\ spl (afterAll cs db) = s).
Proof.
  intros Hem Hp Hne cs.
  destruct cs as [|c cs].
  - cbn [afterAll fold_left].
    pose proof (Next_after_failure _ _ _ _ Hem Hp Hne) as Hn.
    split; [rewrite Hn; reflexivity|].
    split; [unfold GetNextDataNode; rewrite Hn; reflexivity|].
    split; [|intros Hnil; congruence].
    destruct (failing_pull_after CallDone _ _ _ _ Hem Hp Hne) as [He _].
    cbn [after] in He. rewrite Done_eq in *. cbn [fst snd] in *.
    unfold isEmpty. rewrite He.
    destruct (nextData (prepareNext db)); reflexivity.
  - cbn [afterAll fold_left]. fold (afterAll cs (after c db)).
    destruct (failing_pull_after c _ _ _ _ Hem Hp Hne) as [He Hs].
    destruct (pending_error_afterAll cs _ _ He) as [He' Hs'].
    destruct (pending_error_results _ _ He') as (Hn & Hg & Hd).
    split; [exact Hn|]. split; [exact Hg|]. split; [exact Hd|].
    intros _. split; [exact He'|congruence].
Qed.

(** C9.  When one pull of the splitter answers with a chunk and with an
    error other than [io.EOF], the next call of [Next] (straight away or
    after [Done] has buffered the answer) returns no chunk and that error,
    and empties the buffer; from then on [GetNextDataNode] builds no leaf
    and [FillNodeLayer] appends nothing, so the bytes of the chunk reach
    no leaf. *)
Theorem C9_chunk_with_failure_is_dropped db c e s :
  isEmpty db = true ->
  NextBytes (spl db) = ((Some c, Some e), s) ->
  e <> EOF ->
  let db' := set_pull db None (Some e) s in
  Next db = ((None, Some e), db') /\
  Done db = (false, set_pull db (Some c) (Some e) s) /\
  Next (snd (Done db)) = ((None, Some e), db') /\
  nextData db' = None /\
  GetNextDataNode db = ((None, Some e), db') /\
  (forall cs, afterAll cs db' = db') /\
  GetNextDataNode db' = ((None, Some e), db') /\
  (forall n, exists err, FillNodeLayer db' n = Returns (err, n, db')) /\
  (forall n, exists err db'', FillNodeLayer db n = Returns (err, n, db'')).
Proof.
  intros Hem Hp Hne db'.
  pose proof (Next_after_failure _ _ _ _ Hem Hp Hne) as Hn. fold db' in Hn.
  assert (Hprep : prepareNext db = set_pull db (Some c) (Some e) s).
  { rewrite (prepareNext_empty _ _ _ _ Hem Hp).
    destruct e; try congruence; reflexivity. }
  assert (Hdone : Done db = (false, set_pull db (Some c) (Some e) s)).
  { rewrite Done_eq, Hprep. reflexivity. }
  assert (Hg : GetNextDataNode db' = ((None, Some e), db'))
    by (apply GetNextDataNode_pending; reflexivity).
  assert (Hg0 : GetNextDataNode db = ((None, Some e), db'))
    by (unfold GetNextDataNode; rewrite Hn; reflexivity).
  assert (Hn' : Next db' = ((None, Some e), db'))
    by (apply Next_pending; reflexivity).
  assert (Hd' : Done db' = (false, db'))
    by (apply (Done_pending db' e); reflexivity).
  repeat split; try assumption; try reflexivity.
  - rewrite Hdone. cbn [snd]. rewrite Next_error with (e := e) by reflexivity.
    reflexivity.
  - intros cs. induction cs as [|a cs IH]; [reflexivity|].
    cbn [afterAll fold_left]. fold (afterAll cs (after a db')).
    replace (after a db') with db'; [exact IH|].
    destruct a; cbn [after]; [rewrite Hd'|rewrite Hn'|rewrite Hg]; reflexivity.
  - intros n. eexists.
    apply (FillNodeLayer_pending db' e); reflexivity.
  - intros n. unfold FillNodeLayer. cbn [FillNodeLayer_loop].
    destruct (NumChildren n <? maxlinks db); [|eauto].
    rewrite Hdone. cbn [negb].
    unfold GetNextDataNode.
    rewrite Next_error with (e := e) by reflexivity. eauto.
Qed.

End Failures.

Section Exhaustion.

Context {S : Type} `{Splitter S} `{Package}.

Implicit Types (db : @DagBuilderHelper S) (n : UnixfsNode).

(** A splitter that has nothing more to give has nothing more to give
    after a pull. *)
Lemma AllEnd_pull (s : S) : AllEnd s -> AllEnd (snd (NextBytes s)).
Proof. intros Ha k. exact (Ha (Datatypes.S k)). Qed.

(** An answer that is not the end of the stream fills the lookahead. *)
Lemma pull_fills db d e s :
  isEnd (d, e) = false ->
  isEmpty (set_pull db d (match e with Some EOF => None | _ => e end) s)
  = false.
Proof.
  unfold isEmpty; cbn. destruct d; [reflexivity|].
  destruct e as [[]|]; cbn; congruence.
Qed.

(** An answer that is the end of the stream leaves the lookahead empty. *)
Lemma pull_end db d e s :
  isEnd (d, e) = true ->
  set_pull db d (match e with Some EOF => None | _ => e end) s
  = set_pull db None None s.
Proof.
  destruct d; cbn; [discriminate|].
  destruct e as [[]|]; cbn; congruence.
Qed.

(** A pull on a drained builder leaves it drained. *)
Lemma Drained_prepareNext db :
  Drained db -> Drained (prepareNext db).
Proof.
  intros [Hem Hall].
  destruct (NextBytes (spl db)) as [[d e] s] eqn:Hp.
  rewrite (prepareNext_empty _ _ _ _ Hem Hp).
  pose proof (Hall O) as Hend. cbn [pulls] in Hend. rewrite Hp in Hend.
  cbn [fst] in Hend.
  rewrite (pull_end _ _ _ _ Hend). split; [reflexivity|].
  cbn. replace s with (snd (NextBytes (spl db))) by (rewrite Hp; reflexivity).
  apply AllEnd_pull, Hall.
Qed.

(** On a drained builder [Done] answers true. *)
Lemma Drained_Done db :
  Drained db -> fst (Done db) = true /\ Drained (snd (Done db)).
Proof.
  intros Hd. apply Drained_prepareNext in Hd. rewrite Done_eq. cbn.
  split; [apply Hd|exact Hd].
Qed.

(** On a drained builder [Next] returns no chunk and no error. *)
Lemma Drained_Next db :
  Drained db -> fst (Next db) = (None, None) /\ Drained (snd (Next db)).
Proof.
  intros Hd. apply Drained_prepareNext in Hd. destruct Hd as [Hem Hall].
  unfold Next. unfold isEmpty in Hem.
  destruct (nextData (prepareNext db)) eqn:Hnd; [discriminate|].
  destruct (recvdErr (prepareNext db)) eqn:Hre; [discriminate|].
  cbn. rewrite Hre. cbn. split; [reflexivity|].
  split; [unfold isEmpty; cbn; rewrite Hre; reflexivity|exact Hall].
Qed.

(** On a drained builder [GetNextDataNode] returns no node and no error. *)
Lemma Drained_GetNextDataNode db :
  Drained db ->
  fst (GetNextDataNode db) = (None, None) /\
  Drained (snd (GetNextDataNode db)).
Proof.
  intros Hd. destruct (Drained_Next _ Hd) as [Hr Hd'].
  unfold GetNextDataNode. destruct (Next db) as [[d e] db1].
  cbn in Hr, Hd'. injection Hr as -> ->. cbn. auto.
Qed.

(** Calls on a drained builder leave it drained. *)
Lemma Drained_afterAll cs db : Drained db -> Drained (afterAll cs db).
Proof.
  revert db. induction cs as [|c cs IH]; intros db Hd; [exact Hd|].
  cbn [afterAll fold_left]. apply IH.
  destruct c; cbn [after].
  - apply Drained_Done, Hd.
  - apply Drained_Next, Hd.
  - apply Drained_GetNextDataNode, Hd.
Qed.

(** [Done] on a full lookahead, any number of times, changes nothing. *)
Lemma DoneTimes_full db k : isEmpty db = false -> DoneTimes k db = db.
Proof.
  intros Hf. induction k as [|k IH]; [reflexivity|].
  cbn [DoneTimes]. rewrite (Done_full _ Hf). exact IH.
Qed.

(** [Done] any number of times leaves a drained builder drained. *)
Lemma Drained_DoneTimes k db : Drained db -> Drained (DoneTimes k db).
Proof.
  revert db. induction k as [|k IH]; intros db Hd; [exact Hd|].
  cbn [DoneTimes]. apply IH, Drained_Done, Hd.
Qed.

(** When [Done] answers true the lookahead was empty, the splitter
    answered the pull with the end of the stream, and the lookahead is
    empty again. *)
Lemma Done_true db db' :
  Done db = (true, db') ->
  isEmpty db = true /\ isEnd (fst (NextBytes (spl db))) = true /\
  isEmpty db' = true /\ spl db' = snd (NextBytes (spl db)).
Proof.
  rewrite Done_eq. intros Hd. injection Hd as Hem <-.
  destruct (isEmpty db) eqn:He.
  - destruct (NextBytes (spl db)) as [[d e] s] eqn:Hp.
    rewrite (prepareNext_empty _ _ _ _ He Hp) in *.
    destruct (isEnd (d, e)) eqn:Hend.
    + repeat split; auto.
    + rewrite pull_fills in Hem by exact Hend. discriminate.
  - rewrite (prepareNext_full _ He) in Hem. congruence.
Qed.

(** An empty lookahead holds no chunk and no error. *)
Lemma isEmpty_fields db :
  isEmpty db = true -> nextData db = None /\ recvdErr db = None.
Proof.
  unfold isEmpty. destruct (nextData db), (recvdErr db); intros; try discriminate.
  split; reflexivity.
Qed.

(** C6, as the code has it.  [Done] never changes a lookahead that holds
    a chunk or an error, and never consumes the buffered chunk.  Provided
    the end of the stream is final for the splitter (it keeps answering
    with the end of the stream once it has), calling [Done] any number of
    times in a row yields the same boolean every time, leaves the chunk
    and the error that the first call buffered in place, and does not
    change what the next call of [Next] returns. *)
Theorem C6_Done_idempotent db :
  (forall k, isEmpty db = false -> DoneTimes k db = db) /\
  (forall k c, nextData db = Some c -> nextData (DoneTimes k db) = Some c) /\
  (EndIsFinal (spl db) ->
   forall k,
     fst (Done (DoneTimes k db)) = fst (Done db) /\
     fst (Next (DoneTimes k db)) = fst (Next db) /\
     nextData (DoneTimes (Datatypes.S k) db) = nextData (snd (Done db)) /\
     recvdErr (DoneTimes (Datatypes.S k) db) = recvdErr (snd (Done db))).
Proof.
  split; [intros k Hf; apply DoneTimes_full, Hf|].
  split.
  { intros k c Hc. rewrite DoneTimes_full; [exact Hc|].
    unfold isEmpty. rewrite Hc. reflexivity. }
  intros Hfinal k.
  destruct (isEmpty db) eqn:Hem.
  - destruct (NextBytes (spl db)) as [[d e] s] eqn:Hp.
    destruct (isEnd (d, e)) eqn:Hend.
    + assert (Hdr : Drained db).
      { split; [exact Hem|]. apply Hfinal. rewrite Hp. exact Hend. }
      pose proof (Drained_DoneTimes k _ Hdr) as Hk.
      pose proof (Drained_DoneTimes (Datatypes.S k) _ Hdr) as HSk.
      destruct (Drained_Done _ Hk) as [-> _].
      destruct (Drained_Done _ Hdr) as [-> H1].
      destruct (Drained_Next _ Hk) as [-> _].
      destruct (Drained_Next _ Hdr) as [-> _].
      destruct (isEmpty_fields _ (proj1 HSk)) as [-> ->].
      destruct (isEmpty_fields _ (proj1 H1)) as [-> ->].
      repeat split; reflexivity.
    + assert (Hfull : isEmpty (prepareNext db) = false).
      { rewrite (prepareNext_empty _ _ _ _ Hem Hp). apply pull_fills, Hend. }
      assert (HS : forall j, DoneTimes (Datatypes.S j) db = prepareNext db).
      { intros j. cbn [DoneTimes]. rewrite Done_eq. cbn [snd].
        apply DoneTimes_full, Hfull. }
      rewrite HS. rewrite (Done_eq db). cbn [fst snd].
      destruct k as [|k].
      * cbn [DoneTimes]. rewrite Done_eq. repeat split; reflexivity.
      * rewrite HS, (Done_full _ Hfull). cbn [fst].
        unfold Next. rewrite (prepareNext_full _ Hfull), Hfull.
        repeat split; reflexivity.
  - rewrite !DoneTimes_full by exact Hem.
    rewrite (Done_full _ Hem). repeat split; reflexivity.
Qed.

(** C7, as the code has it.  Provided the end of the stream is final for
    the splitter, once [Done] has answered true every later call of [Next]
    returns no chunk and no error and every later call of
    [GetNextDataNode] returns no node and no error, however many calls
    have been made since; [Done] keeps answering true. *)
Theorem C7_clean_end_of_stream db db' :
  Done db = (true, db') ->
  EndIsFinal (spl db) ->
  forall cs,
    fst (Next (afterAll cs db')) = (None, None) /\
    fst (GetNextDataNode (afterAll cs db')) = (None, None) /\
    fst (Done (afterAll cs db')) = true.
Proof.
  intros Hdone Hfinal cs.
  destruct (Done_true _ _ Hdone) as (Hem & Hend & Hem' & Hspl).
  assert (Hdr : Drained db').
  { split; [exact Hem'|]. rewrite Hspl. apply AllEnd_pull, Hfinal, Hend. }
  pose proof (Drained_afterAll cs _ Hdr) as Hcs.
  split; [apply Drained_Next, Hcs|].
  split; [apply Drained_GetNextDataNode, Hcs|apply Drained_Done, Hcs].
Qed.

End Exhaustion.

Section Factory.

Context {S : Type} `{Splitter S} `{Package}.

Implicit Types (db : @DagBuilderHelper S) (n : UnixfsNode).

(** [NewLeaf] returns a node or an error, never neither. *)
Lemma NewLeaf_node_or_error db data :
  (exists nd, NewLeaf db data = (Some nd, None)) \/
  (exists e, NewLeaf db data = (None, Some e)).
Proof.
  unfold NewLeaf, NewRawNodeWPrefix.
  destruct (len data >? BlockSizeLimit); [right; eauto|].
  destruct (rawLeaves db).
  - destruct (prefix db) as [p|]; [|left; eauto].
    destruct (sumError data p); [right|left]; eauto.
  - destruct data; left; eauto.
Qed.

(** The leaf of a chunk within the limit carries the bytes of the chunk,
    in either encoding. *)
Lemma NewLeaf_payload db c nd :
  NewLeaf db (Some c) = (Some nd, None) -> payload nd = c.
Proof.
  unfold NewLeaf, NewRawNodeWPrefix.
  destruct (len (Some c) >? BlockSizeLimit); [discriminate|].
  destruct (rawLeaves db).
  - destruct (prefix db) as [p|].
    + destruct (sumError (Some c) p); [discriminate|].
      intros Heq. injection Heq as <-. reflexivity.
    + intros Heq. injection Heq as <-. reflexivity.
  - intros Heq. injection Heq as <-. reflexivity.
Qed.

(** Within the limit, [NewLeaf] returns a node, or the error of the hash
    function when a raw leaf is built under a configured prefix. *)
Lemma NewLeaf_within_limit db data :
  len data <= BlockSizeLimit ->
  (exists nd, NewLeaf db data = (Some nd, None)) \/
  (exists p e, rawLeaves db = true /\ prefix db = Some p /\
               sumError data p = Some e /\
               NewLeaf db data = (None, Some e)).
Proof.
  unfold NewLeaf, NewRawNodeWPrefix. intros Hlen.
  destruct (len data >? BlockSizeLimit) eqn:Hgt.
  - apply Z.gtb_gt in Hgt. lia.
  - destruct (rawLeaves db).
    + destruct (prefix db) as [p|]; [|left; eauto].
      destruct (sumError data p) as [e|] eqn:Hs; [|left; eauto].
      right. exists p, e. auto.
    + destruct data; left; eauto.
Qed.

(** C4.  A slice longer than [BlockSizeLimit] makes [NewLeaf] fail with
    [ErrSizeLimitExceeded], with raw leaves and without; a slice within
    the limit passes the size check: [NewLeaf] returns a node, or the
    error of the hash function when a raw leaf is built under a
    configured prefix. *)
Theorem C4_size_limit db data :
  (len data > BlockSizeLimit ->
   NewLeaf db data = (None, Some ErrSizeLimitExceeded)) /\
  (len data <= BlockSizeLimit ->
   (exists nd, NewLeaf db data = (Some nd, None)) \/
   (exists p e, rawLeaves db = true /\ prefix db = Some p /\
                sumError data p = Some e /\
                NewLeaf db data = (None, Some e))).
Proof.
  split; [|apply NewLeaf_within_limit].
  intros Hlen. unfold NewLeaf.
  apply Z.gtb_gt in Hlen. rewrite Hlen. reflexivity.
Qed.

(** C5.  Without raw leaves, and for data within [BlockSizeLimit] (a
    chunk is within the limit; beyond it the size check of C4 applies): [NewLeaf] of the nil slice returns the wrapped node
    of [NewUnixfsNode], tagged [TFile] and carrying no bytes; [NewLeaf] of
    a non-nil slice, the zero-length one included, returns a wrapped node
    tagged [TRaw] that carries exactly the bytes of the slice; the node
    for nil differs from the node for the empty slice. *)
Theorem C5_wrapped_leaves db :
  rawLeaves db = false ->
  (0 <= BlockSizeLimit ->
   NewLeaf db None = (Some (NewUnixfsNode db), None) /\
   raw (NewUnixfsNode db) = false /\
   ufmt (NewUnixfsNode db) =
   Some {| Type_ := TFile; Data := None; blocksizes := [] |}) /\
  (forall d, len (Some d) <= BlockSizeLimit ->
   exists nd,
     NewLeaf db (Some d) = (Some nd, None) /\
     raw nd = false /\
     ufmt nd = Some {| Type_ := TRaw; Data := Some d; blocksizes := [] |} /\
     payload nd = d) /\
  (0 <= BlockSizeLimit -> NewLeaf db None <> NewLeaf db (Some [])).
Proof.
  intros Hraw. unfold NewLeaf. rewrite Hraw.
  split; [|split].
  - intros Hpos. cbn [len].
    destruct (0 >? BlockSizeLimit) eqn:Hgt;
      [apply Z.gtb_gt in Hgt; lia|].
    repeat split; reflexivity.
  - intros d Hlen.
    destruct (len (Some d) >? BlockSizeLimit) eqn:Hgt;
      [apply Z.gtb_gt in Hgt; lia|].
    eexists. repeat split; reflexivity.
  - intros Hpos. cbn [len length Z.of_nat].
    destruct (0 >? BlockSizeLimit) eqn:Hgt;
      [apply Z.gtb_gt in Hgt; lia|].
    cbn. intros Heq. discriminate Heq.
Qed.

End Factory.

Section Filler.

Context {S : Type} `{Splitter S} `{Package}.

Implicit Types (db : @DagBuilderHelper S) (n : UnixfsNode).

(** The calls on the lookahead leave [maxlinks] alone. *)
Lemma Done_maxlinks db : maxlinks (snd (Done db)) = maxlinks db.
Proof. rewrite Done_eq. apply prepareNext_frame. Qed.

Lemma Next_maxlinks db : maxlinks (snd (Next db)) = maxlinks db.
Proof.
  unfold Next. destruct (recvdErr (set_nextData (prepareNext db) None));
    cbn; apply prepareNext_frame.
Qed.

Lemma GetNextDataNode_maxlinks db :
  maxlinks (snd (GetNextDataNode db)) = maxlinks db.
Proof.
  unfold GetNextDataNode. pose proof (Next_maxlinks db) as Hm.
  destruct (Next db) as [[d e] db1]. cbn in Hm.
  destruct e; [exact Hm|]. destruct d; exact Hm.
Qed.

(** After [Done] has answered false, [GetNextDataNode] returns a node or
    an error: the loop of [FillNodeLayer] never hands a nil child to
    [AddChild]. *)
Lemma GetNextDataNode_after_Done db db1 child db2 :
  Done db = (false, db1) ->
  GetNextDataNode db1 = ((child, None), db2) ->
  exists c, child = Some c.
Proof.
  rewrite Done_eq. intros Hd. injection Hd as Hfull <-.
  unfold GetNextDataNode, Next.
  rewrite (prepareNext_full _ Hfull). cbn.
  unfold isEmpty in Hfull.
  destruct (recvdErr (prepareNext db)) as [e|]; [discriminate|].
  destruct (nextData (prepareNext db)) as [c|]; [|discriminate].
  intros Hg.
  destruct (NewLeaf_node_or_error
              (set_nextData (prepareNext db) None) (Some c))
    as [[nd Hn]|[e Hn]]; rewrite Hn in Hg.
  - injection Hg as <- _. eauto.
  - discriminate.
Qed.

(** What [AddChild] does to a node that can take children. *)
Lemma AddChild_internal n c db :
  isInternal n = true ->
  exists e n',
    AddChild n (Some c) db =
    Returns (e, n', set_batch db (snd (Batch_Add (batch db) c))) /\
    e = fst (Batch_Add (batch db) c) /\
    isInternal n' = true /\
    children n' = children n ++ [c] /\
    NumChildren n' = NumChildren n + 1.
Proof.
  unfold isInternal, AddChild, children, NumChildren.
  destruct (node n) as [p|]; [|discriminate].
  destruct (ufmt n) as [f|]; [|discriminate]. intros _.
  destruct (Batch_Add (batch db) c) as [e b].
  do 2 eexists. split; [reflexivity|]. split; [reflexivity|]. cbn.
  rewrite map_app, length_app, Nat2Z.inj_add. cbn. auto.
Qed.

(** The loop of [FillNodeLayer] returns once it has enough fuel; it only
    appends children, and never beyond [maxlinks]. *)
Lemma FillNodeLayer_loop_returns fuel : forall db n,
  isInternal n = true ->
  (Z.to_nat (maxlinks db - NumChildren n) < fuel)%nat ->
  exists err n' db',
    FillNodeLayer_loop fuel db n = Returns (err, n', db') /\
    maxlinks db' = maxlinks db /\
    isInternal n' = true /\
    (exists new, children n' = children n ++ new) /\
    (NumChildren n <= maxlinks db -> NumChildren n' <= maxlinks db).
Proof.
  induction fuel as [|fuel IH]; intros db n Hint Hfuel; [lia|].
  cbn [FillNodeLayer_loop].
  destruct (NumChildren n <? maxlinks db) eqn:Hlt.
  2:{ exists None, n, db. repeat split; auto. exists []. now rewrite app_nil_r. }
  apply Z.ltb_lt in Hlt.
  pose proof (Done_maxlinks db) as Hm1.
  destruct (Done db) as [done db1] eqn:Hdone. cbn [snd] in Hm1.
  destruct done; cbn [negb].
  { exists None, n, db1. repeat split; auto. exists []. now rewrite app_nil_r. }
  pose proof (GetNextDataNode_maxlinks db1) as Hm2.
  destruct (GetNextDataNode db1) as [[child err] db2] eqn:Hget.
  cbn [snd] in Hm2.
  destruct err as [e|].
  { exists (Some e), n, db2. repeat split; try congruence.
    exists []. now rewrite app_nil_r. }
  destruct (GetNextDataNode_after_Done _ _ _ _ Hdone Hget) as [c ->].
  destruct (AddChild_internal n c db2 Hint) as (e & n' & Hadd & _ & Hint' & Hch & Hnum).
  rewrite Hadd.
  destruct e as [e|].
  - exists (Some e), n', (set_batch db2 (snd (Batch_Add (batch db2) c))).
    repeat split; cbn; try congruence; eauto. lia.
  - destruct (IH (set_batch db2 (snd (Batch_Add (batch db2) c))) n' Hint')
      as (err & n'' & db' & Hloop & Hm & Hint'' & [new Hnew] & Hle).
    { cbn [set_batch maxlinks]. rewrite Hnum. lia. }
    exists err, n'', db'. rewrite Hloop.
    cbn [set_batch maxlinks] in Hm, Hle.
    repeat split; try congruence.
    + exists (c :: new). rewrite Hnew, Hch, <- app_assoc. reflexivity.
    + intros _. rewrite <- Hm1, <- Hm2. apply Hle. lia.
Qed.

(** More fuel does not change what the loop returns. *)
Lemma FillNodeLayer_loop_fuel fuel : forall db n r fuel',
  FillNodeLayer_loop fuel db n = Returns r ->
  (fuel <= fuel')%nat ->
  FillNodeLayer_loop fuel' db n = Returns r.
Proof.
  induction fuel as [|fuel IH]; intros db n r fuel' Hr Hle; [discriminate|].
  destruct fuel' as [|fuel']; [lia|].
  cbn [FillNodeLayer_loop] in *.
  destruct (NumChildren n <? maxlinks db); [|exact Hr].
  destruct (Done db) as [done db1]. destruct (negb done); [|exact Hr].
  destruct (GetNextDataNode db1) as [[child err] db2].
  destruct err; [exact Hr|].
  destruct (AddChild n child db2) as [[[[e|] n'] db3]| |]; try exact Hr.
  apply IH; [exact Hr|lia].
Qed.

(** C1.  [FillNodeLayer] on a node that can take children and holds at
    most [maxlinks] of them returns, with nil or with an error, and the
    node then still holds at most [maxlinks] children, whatever is left
    in the splitter; the children it held come first, unchanged. *)
Theorem C1_fanout_bound db n :
  isInternal n = true ->
  NumChildren n <= maxlinks db ->
  exists err n' db',
    FillNodeLayer db n = Returns (err, n', db') /\
    NumChildren n' <= maxlinks db' /\
    maxlinks db' = maxlinks db /\
    exists new, children n' = children n ++ new.
Proof.
  intros Hint Hle.
  destruct (FillNodeLayer_loop_returns
              (Datatypes.S (Z.to_nat (maxlinks db - NumChildren n))) db n Hint)
    as (err & n' & db' & Hret & Hm & _ & Hnew & Hbound); [lia|].
  exists err, n', db'. rewrite Hm. auto.
Qed.

(** C10.  On a node that already holds [maxlinks] children or more,
    [FillNodeLayer] returns nil at once: the node is unchanged and so is
    the builder, lookahead and splitter included. *)
Theorem C10_full_node_untouched db n :
  maxlinks db <= NumChildren n ->
  FillNodeLayer db n = Returns (None, n, db).
Proof.
  intros Hfull. unfold FillNodeLayer. cbn [FillNodeLayer_loop].
  destruct (NumChildren n <? maxlinks db) eqn:Hlt; [|reflexivity].
  apply Z.ltb_lt in Hlt. lia.
Qed.

End Filler.

Section RoundTrip.

Context `{Package}.

Implicit Types (db : @DagBuilderHelper (list response)) (n : UnixfsNode)
  (cs : list bytes).

(** The pull of a builder over a chunked stream buffers the first chunk
    ahead. *)
Lemma prepareNext_ahead db cs :
  ChunksAhead db cs ->
  ChunksAhead (prepareNext db) cs /\
  nextData (prepareNext db) = hd_error cs /\
  recvdErr (prepareNext db) = None.
Proof.
  intros (Herr & rest & Hspl & Hcs). unfold buffered in Hcs.
  destruct (nextData db) as [c|] eqn:Hnd.
  - rewrite prepareNext_full by (unfold isEmpty; rewrite Hnd; reflexivity).
    subst cs. repeat split; auto.
    exists rest. unfold buffered. rewrite Hnd. auto.
  - assert (Hem : isEmpty db = true)
      by (unfold isEmpty; rewrite Hnd, Herr; reflexivity).
    cbn in Hcs. subst cs.
    destruct rest as [|c rest].
    + rewrite (prepareNext_empty db None (Some EOF) [] Hem)
        by (rewrite Hspl; reflexivity).
      repeat split; try reflexivity. exists []. split; reflexivity.
    + rewrite (prepareNext_empty db (Some c) None (chunked rest) Hem)
        by (rewrite Hspl; reflexivity).
      repeat split; try reflexivity. exists rest. split; reflexivity.
Qed.

(** [Done] on a builder over a chunked stream: true exactly when no chunk
    is ahead; the chunks ahead stay ahead. *)
Lemma Done_ahead db cs :
  ChunksAhead db cs ->
  fst (Done db) = match cs with [] => true | _ :: _ => false end /\
  ChunksAhead (snd (Done db)) cs.
Proof.
  intros Ha. destruct (prepareNext_ahead _ _ Ha) as (Ha' & Hnd & Herr).
  rewrite Done_eq. cbn [fst snd]. split; [|exact Ha'].
  unfold isEmpty. rewrite Hnd, Herr. destruct cs; reflexivity.
Qed.

(** [Next] on a builder over a chunked stream returns the first chunk
    ahead and leaves the others ahead. *)
Lemma Next_ahead db cs :
  ChunksAhead db cs ->
  fst (Next db) = (hd_error cs, None) /\
  ChunksAhead (snd (Next db)) (tl cs).
Proof.
  intros Ha. destruct (prepareNext_ahead _ _ Ha) as (Ha' & Hnd & Herr).
  unfold Next. cbn. rewrite Herr, Hnd. cbn. split; [reflexivity|].
  destruct Ha' as (_ & rest & Hspl & Hcs).
  split; [exact Herr|]. exists rest. split; [exact Hspl|].
  unfold buffered in *. rewrite Hnd in Hcs. cbn.
  destruct cs as [|c cs]; cbn in *; [exact Hcs|]. congruence.
Qed.

(** The calls on the lookahead leave the rest of the builder alone. *)
Lemma Next_frame db :
  rawLeaves (snd (Next db)) = rawLeaves db /\
  batch (snd (Next db)) = batch db /\
  prefix (snd (Next db)) = prefix db.
Proof.
  destruct (prepareNext_frame db) as (Hr & _ & Hb & Hp).
  unfold Next. destruct (recvdErr (set_nextData (prepareNext db) None));
    cbn; auto.
Qed.

Lemma Done_frame db :
  rawLeaves (snd (Done db)) = rawLeaves db /\
  batch (snd (Done db)) = batch db /\
  prefix (snd (Done db)) = prefix db.
Proof.
  destruct (prepareNext_frame db) as (Hr & _ & Hb & Hp).
  rewrite Done_eq. cbn. auto.
Qed.

(** [GetNextDataNode] on a builder with a chunk ahead builds the leaf of
    that chunk. *)
Lemma GetNextDataNode_ahead db c cs :
  ChunksAhead db (c :: cs) ->
  GetNextDataNode db = (NewLeaf (snd (Next db)) (Some c), snd (Next db)) /\
  ChunksAhead (snd (Next db)) cs.
Proof.
  intros Ha. destruct (Next_ahead _ _ Ha) as [Hr Ha'].
  unfold GetNextDataNode. destruct (Next db) as [[d e] db1].
  cbn in *. injection Hr as -> ->. auto.
Qed.

(** A reliable builder stays reliable through the calls on the
    lookahead. *)
Lemma Reliable_frame db db' :
  batch db' = batch db -> prefix db' = prefix db ->
  Reliable db -> Reliable db'.
Proof. unfold Reliable. intros -> ->. auto. Qed.

(** On a reliable builder the leaf of a chunk within the limit is built. *)
Lemma NewLeaf_reliable db c :
  Reliable db -> len (Some c) <= BlockSizeLimit ->
  exists nd, NewLeaf db (Some c) = (Some nd, None).
Proof.
  intros [_ Hsum] Hlen.
  destruct (NewLeaf_within_limit db (Some c) Hlen)
    as [Hok|(p & e & _ & Hp & Hs & _)]; [exact Hok|].
  rewrite (Hsum p (Some c) Hp) in Hs. discriminate.
Qed.

(** A store that does not fail stages the node. *)
Lemma Batch_Add_reliable b nd :
  Forall (fun a => a = None) (dserv b) ->
  fst (Batch_Add b nd) = None /\
  Forall (fun a => a = None) (dserv (snd (Batch_Add b nd))).
Proof.
  unfold Batch_Add. intros Hall.
  destruct (dserv b) as [|a ds]; [split; [reflexivity|constructor]|].
  inversion Hall as [|? ? -> Hds]. cbn. auto.
Qed.

(** Staging a child leaves the chunks ahead where they are. *)
Lemma ChunksAhead_set_batch db b cs :
  ChunksAhead db cs -> ChunksAhead (set_batch db b) cs.
Proof. intros Ha. exact Ha. Qed.

(** The loop of [FillNodeLayer] over a chunked stream.  When it returns
    nil, it has taken chunks from the front of the ones ahead and appended
    their leaves, in order; it takes at least one if the node has room and
    a chunk is ahead.  On a reliable builder, with the chunks within the
    limit, it returns nil. *)
Lemma FillNodeLayer_loop_ahead fuel : forall db n cs,
  ChunksAhead db cs ->
  isInternal n = true ->
  (Z.to_nat (maxlinks db - NumChildren n) < fuel)%nat ->
  exists err n' db',
    FillNodeLayer_loop fuel db n = Returns (err, n', db') /\
    (err = None ->
     exists taken rest,
       cs = taken ++ rest /\
       map payload (children n') = map payload (children n) ++ taken /\
       ChunksAhead db' rest /\
       maxlinks db' = maxlinks db /\
       (NumChildren n < maxlinks db -> cs <> [] -> taken <> [])) /\
    (Reliable db -> WithinLimit cs -> err = None /\ Reliable db').
Proof.
  induction fuel as [|fuel IH]; intros db n cs Ha Hint Hfuel; [lia|].
  cbn [FillNodeLayer_loop].
  destruct (NumChildren n <? maxlinks db) eqn:Hlt.
  2:{ apply Z.ltb_ge in Hlt. exists None, n, db.
      split; [reflexivity|]. split; [|auto].
      intros _. exists [], cs.
      split; [reflexivity|]. split; [now rewrite app_nil_r|].
      split; [exact Ha|]. split; [reflexivity|]. intros; lia. }
  apply Z.ltb_lt in Hlt.
  destruct (Done_ahead _ _ Ha) as [Hd Ha1].
  pose proof (Done_maxlinks db) as Hm1.
  destruct (Done_frame db) as (_ & Hb1 & Hp1).
  destruct (Done db) as [done db1]. cbn [fst snd] in *. subst done.
  destruct cs as [|c cs]; cbn [negb].
  { exists None, n, db1. split; [reflexivity|]. split.
    - intros _. exists [], [].
      split; [reflexivity|]. split; [now rewrite app_nil_r|].
      split; [exact Ha1|]. split; [exact Hm1|]. intros _ Hne. exact Hne.
    - intros Hrel _. split; [reflexivity|].
      exact (Reliable_frame _ _ Hb1 Hp1 Hrel). }
  destruct (GetNextDataNode_ahead _ _ _ Ha1) as [Hget Ha2].
  pose proof (Next_maxlinks db1) as Hm2.
  destruct (Next_frame db1) as (_ & Hb2 & Hp2).
  set (db2 := snd (Next db1)) in *.
  assert (Hrel2 : Reliable db -> Reliable db2).
  { intros Hrel. apply (Reliable_frame db1 db2 Hb2 Hp2).
    exact (Reliable_frame _ _ Hb1 Hp1 Hrel). }
  rewrite Hget.
  destruct (NewLeaf_node_or_error db2 (Some c)) as [[nd Hleaf]|[e Hleaf]];
    rewrite Hleaf.
  2:{ exists (Some e), n, db2. split; [reflexivity|].
      split; [discriminate|].
      intros Hrel Hlim. inversion Hlim as [|? ? Hc _].
      destruct (NewLeaf_reliable db2 c (Hrel2 Hrel) Hc) as [nd' Hnd'].
      congruence. }
  pose proof (NewLeaf_payload _ _ _ Hleaf) as Hpay.
  destruct (AddChild_internal n nd db2 Hint)
    as (e & n' & Hadd & He & Hint' & Hch & Hnum).
  rewrite Hadd.
  set (db3 := set_batch db2 (snd (Batch_Add (batch db2) nd))) in *.
  assert (Hrel3 : Reliable db -> e = None /\ Reliable db3).
  { intros Hrel. destruct (Hrel2 Hrel) as [Hst Hsum].
    destruct (Batch_Add_reliable (batch db2) nd Hst) as [Hfst Hrest].
    split; [congruence|]. split; [exact Hrest|exact Hsum]. }
  destruct e as [e|].
  { exists (Some e), n', db3. split; [reflexivity|].
    split; [discriminate|].
    intros Hrel _. destruct (Hrel3 Hrel) as [Hno _]. discriminate. }
  destruct (IH db3 n' cs (ChunksAhead_set_batch _ _ _ Ha2) Hint')
    as (err & n'' & db' & Hloop & Hpart & Htot).
  { cbn [db3 set_batch maxlinks]. rewrite Hnum. lia. }
  exists err, n'', db'. split; [exact Hloop|]. split.
  - intros Herr. destruct (Hpart Herr) as (taken & rest & -> & Hp' & Ha' & Hm' & _).
    exists (c :: taken), rest. split; [reflexivity|].
    split.
    { rewrite Hp', Hch, map_app, <- app_assoc. cbn. rewrite Hpay.
      reflexivity. }
    split; [exact Ha'|].
    split; [cbn [db3 set_batch maxlinks] in Hm'; congruence|].
    intros _ _. discriminate.
  - intros Hrel Hlim. inversion Hlim as [|? ? _ Hcs].
    apply Htot; [apply Hrel3, Hrel|exact Hcs].
Qed.

(** A new node can take children and has none. *)
Lemma NewUnixfsNode_fresh db :
  isInternal (NewUnixfsNode db) = true /\
  children (NewUnixfsNode db) = [] /\
  NumChildren (NewUnixfsNode db) = 0.
Proof. repeat split; reflexivity. Qed.

(** [FillNodeLayer] on a new node, over a chunked stream. *)
Lemma FillNodeLayer_ahead db cs :
  ChunksAhead db cs ->
  exists err n' db',
    FillNodeLayer db (NewUnixfsNode db) = Returns (err, n', db') /\
    (err = None ->
     exists taken rest,
       cs = taken ++ rest /\
       map payload (children n') = taken /\
       ChunksAhead db' rest /\
       maxlinks db' = maxlinks db /\
       (1 <= maxlinks db -> cs <> [] -> taken <> [])) /\
    (Reliable db -> WithinLimit cs -> err = None /\ Reliable db').
Proof.
  intros Ha. unfold FillNodeLayer.
  destruct (FillNodeLayer_loop_ahead
              (Datatypes.S
                 (Z.to_nat (maxlinks db - NumChildren (NewUnixfsNode db))))
              db (NewUnixfsNode db) cs Ha)
    as (err & n' & db' & Hloop & Hpart & Htot); [reflexivity|lia|].
  exists err, n', db'. split; [exact Hloop|]. split; [|exact Htot].
  intros Herr.
  destruct (Hpart Herr) as (taken & rest & Hcs & Hp & Ha' & Hm & Hprog).
  exists taken, rest. repeat (split; [assumption|]).
  intros Hml. apply Hprog.
  change (NumChildren (NewUnixfsNode db)) with 0. lia.
Qed.

(** The payloads of the leaves under a list of nodes, node by node. *)
Lemma leafPayloads_cons n ns :
  leafPayloads (n :: ns) = map payload (children n) ++ leafPayloads ns.
Proof. unfold leafPayloads. cbn. apply map_app. Qed.

(** When the caller's loop ends without an error, the leaves it appended
    carry the chunks that were ahead, in order. *)
Lemma fillLayers_ahead fuel : forall db cs ns db',
  ChunksAhead db cs ->
  fillLayers fuel db = Returns (None, ns, db') ->
  leafPayloads ns = cs.
Proof.
  induction fuel as [|fuel IH]; intros db cs ns db' Ha; [discriminate|].
  cbn [fillLayers].
  destruct (Done_ahead _ _ Ha) as [Hd Ha1].
  destruct (Done db) as [done db1]. cbn [fst snd] in *. subst done.
  destruct cs as [|c cs].
  { intros Hr. injection Hr as <- _. reflexivity. }
  destruct (FillNodeLayer_ahead _ _ Ha1)
    as (err & n' & db2 & Hfill & Hpart & _).
  rewrite Hfill. destruct err as [e|]; [discriminate|].
  destruct (Hpart eq_refl) as (taken & rest & Hcs & Hp & Ha2 & _).
  destruct (fillLayers fuel db2) as [[[e ns'] db3]| |] eqn:Hrec;
    try discriminate.
  intros Hr. injection Hr as -> <- _.
  rewrite leafPayloads_cons, Hp, (IH _ _ _ _ Ha2 Hrec). symmetry. exact Hcs.
Qed.

(** On a reliable builder that allows at least one link per node, over
    chunks within the limit, the caller's loop ends without an error once
    it has fuel for one more round than there are chunks ahead. *)
Lemma fillLayers_returns fuel : forall db cs,
  ChunksAhead db cs ->
  Reliable db ->
  WithinLimit cs ->
  1 <= maxlinks db ->
  (length cs < fuel)%nat ->
  exists ns db', fillLayers fuel db = Returns (None, ns, db').
Proof.
  induction fuel as [|fuel IH]; intros db cs Ha Hrel Hlim Hml Hfuel; [lia|].
  cbn [fillLayers].
  destruct (Done_ahead _ _ Ha) as [Hd Ha1].
  pose proof (Done_maxlinks db) as Hm1.
  destruct (Done_frame db) as (_ & Hb1 & Hp1).
  destruct (Done db) as [done db1]. cbn [fst snd] in *. subst done.
  destruct cs as [|c cs]; [eauto|].
  destruct (FillNodeLayer_ahead _ _ Ha1)
    as (err & n' & db2 & Hfill & Hpart & Htot).
  rewrite Hfill.
  destruct (Htot (Reliable_frame _ _ Hb1 Hp1 Hrel) Hlim) as [-> Hrel2].
  destruct (Hpart eq_refl) as (taken & rest & Hcs & _ & Ha2 & Hm2 & Hprog).
  assert (Hne : taken <> []) by (apply Hprog; [lia|discriminate]).
  assert (Hlen : (length rest < fuel)%nat).
  { apply (f_equal (@length bytes)) in Hcs. rewrite length_app in Hcs.
    cbn [length] in Hcs, Hfuel. destruct taken; [congruence|].
    cbn [length] in Hcs. lia. }
  assert (Hlim2 : WithinLimit rest).
  { unfold WithinLimit in *. rewrite Hcs in Hlim.
    apply Forall_app in Hlim. apply Hlim. }
  destruct (IH db2 rest Ha2 Hrel2 Hlim2) as (ns & db3 & Hrec); [lia|exact Hlen|].
  rewrite Hrec. eauto.
Qed.

(** A new builder over a chunked stream has all the chunks ahead. *)
Lemma New_ahead (params : DagBuilderParams) cs :
  ChunksAhead (New params (chunked cs)) cs.
Proof. split; [reflexivity|]. exists cs. split; reflexivity. Qed.

(** C2.  Over a stream cut into chunks that are each within
    [BlockSizeLimit], whenever the calls of [FillNodeLayer] on successive
    new nodes have consumed the stream without an error, the payloads of
    the leaves they appended, in child order, are the chunks of the
    stream, and their concatenation is the stream; and when neither the
    store nor the hash function fails and [Maxlinks] is at least one, the
    calls do consume the stream without an error. *)
Theorem C2_round_trip (params : DagBuilderParams) (chunks : list bytes) :
  WithinLimit chunks ->
  let db := New params (chunked chunks) in
  (forall fuel ns db',
     fillLayers fuel db = Returns (None, ns, db') ->
     leafPayloads ns = chunks /\
     concat (leafPayloads ns) = concat chunks) /\
  (1 <= Maxlinks params ->
   Forall (fun a => a = None) (Dagserv params) ->
   (forall p d, PrefixParam params = Some p -> sumError d p = None) ->
   exists ns db',
     fillLayers (Datatypes.S (length chunks)) db = Returns (None, ns, db') /\
     concat (leafPayloads ns) = concat chunks).
Proof.
  intros Hlim db. split.
  - intros fuel ns db' Hrun.
    pose proof (fillLayers_ahead fuel db chunks ns db'
                  (New_ahead params chunks) Hrun) as Heq.
    split; [exact Heq|]. rewrite Heq. reflexivity.
  - intros Hml Hstore Hsum.
    destruct (fillLayers_returns (Datatypes.S (length chunks)) db chunks
                (New_ahead params chunks))
      as (ns & db' & Hrun); auto.
    { split; [exact Hstore|exact Hsum]. }
    exists ns, db'. split; [exact Hrun|].
    rewrite (fillLayers_ahead _ db chunks ns db'
               (New_ahead params chunks) Hrun).
    reflexivity.
Qed.

End RoundTrip.

Section Examples.

#[local] Existing Instance pkg4.

(** The scripted splitter whose script is over has nothing more to give. *)
Lemma script_nil_AllEnd : AllEnd ([] : list response).
Proof.
  intros k. induction k as [|k IH]; [reflexivity|exact IH].
Qed.

(** C8.  Block size limit 4, two links per node, ABCDEFGHIJ delivered as
    ABCD, EFGH, IJ (with raw leaves or without).  The first call of
    [FillNodeLayer] appends the leaves of ABCD and EFGH and stops at the
    cap, with IJ still in the splitter; the second call, on a new node,
    appends the leaf of IJ alone.  [Done] answers false before the first
    call, between the calls, and after one and after two chunks have been
    taken; it answers true after the third has been taken. *)
Theorem C8_ten_bytes_two_links (rawLeaves : bool) :
  let db0 := abc_builder rawLeaves in
  exists n1 db1 n2 db2,
    fst (Done db0) = false /\
    FillNodeLayer db0 (NewUnixfsNode db0) = Returns (None, n1, db1) /\
    map payload (children n1) = [str "ABCD"; str "EFGH"] /\
    NumChildren n1 = 2 /\
    nextData db1 = None /\
    spl db1 = chunked [str "IJ"] /\
    fst (Done db1) = false /\
    FillNodeLayer db1 (NewUnixfsNode db1) = Returns (None, n2, db2) /\
    map payload (children n2) = [str "IJ"] /\
    NumChildren n2 = 1 /\
    fst (Done db2) = true /\
    fst (Done (NextTimes 1 db0)) = false /\
    fst (Done (NextTimes 2 db0)) = false /\
    fst (Done (NextTimes 3 db0)) = true.
Proof.
  destruct rawLeaves; cbv zeta; do 4 eexists;
    repeat (split; [vm_compute; reflexivity|]); vm_compute; reflexivity.
Qed.

(** C1 at the first node of the example: the new node holds no child, the
    filled node holds no more than two. *)
Lemma C1_fanout_bound_witness :
  let db := abc_builder false in
  let n := NewUnixfsNode db in
  isInternal n = true /\
  NumChildren n <= maxlinks db /\
  exists err n' db',
    FillNodeLayer db n = Returns (err, n', db') /\
    NumChildren n' <= maxlinks db' /\
    maxlinks db' = maxlinks db /\
    exists new, children n' = children n ++ new.
Proof.
  cbv zeta. split; [reflexivity|]. split; [vm_compute; discriminate|].
  apply (C1_fanout_bound (abc_builder false)
           (NewUnixfsNode (abc_builder false)));
    [reflexivity|vm_compute; discriminate].
Defined.

(** C2 at the example: the three chunks are within the limit of 4, and
    the leaves carry ABCDEFGHIJ. *)
Lemma C2_round_trip_witness :
  WithinLimit abc_chunks /\
  (forall fuel ns db',
     fillLayers fuel (abc_builder false) = Returns (None, ns, db') ->
     leafPayloads ns = abc_chunks /\
     concat (leafPayloads ns) = concat abc_chunks) /\
  exists ns db',
    fillLayers 4 (abc_builder false) = Returns (None, ns, db') /\
    concat (leafPayloads ns) = str "ABCDEFGHIJ".
Proof.
  assert (Hlim : WithinLimit abc_chunks)
    by (repeat constructor; vm_compute; discriminate).
  split; [exact Hlim|].
  destruct (C2_round_trip (params2 false) abc_chunks Hlim) as [Hpart Htot].
  split; [exact Hpart|].
  destruct Htot as (ns & db' & Hrun & Hcat).
  - vm_compute; discriminate.
  - constructor.
  - intros p d Hp. discriminate Hp.
  - exists ns, db'. split; [exact Hrun|exact Hcat].
Defined.

(** C3 at a splitter that fails and would deliver a chunk afterwards. *)
Lemma C3_failure_is_permanent_witness :
  let db := builder false failsThenDelivers in
  isEmpty db = true /\
  NextBytes (spl db) = ((None, Some readFailure), [chunk (str "A")]) /\
  readFailure <> EOF /\
  forall cs,
    fst (Next (afterAll cs db)) = (None, Some readFailure) /\
    fst (GetNextDataNode (afterAll cs db)) = (None, Some readFailure) /\
    fst (Done (afterAll cs db)) = false /\
    (cs <> [] ->
     recvdErr (afterAll cs db) = Some readFailure /\
     spl (afterAll cs db) = [chunk (str "A")]).
Proof.
  cbv zeta. split; [reflexivity|]. split; [reflexivity|].
  split; [discriminate|].
  apply (C3_failure_is_permanent (builder false failsThenDelivers) None
           readFailure [chunk (str "A")]);
    [reflexivity|reflexivity|discriminate].
Defined.

(** C3 as stated fails: once the error has been returned it is still
    pending, and the next call returns it again where a lookahead refilled
    from scratch would deliver the chunk the splitter holds. *)
Lemma C3_error_is_not_cleared :
  let db := builder false failsThenDelivers in
  let db1 := snd (Next db) in
  fst (Next db) = (None, Some readFailure) /\
  recvdErr db1 <> None /\
  fst (Next db1) = (None, Some readFailure) /\
  fst (Next (set_recvdErr db1 None)) = (Some (str "A"), None) /\
  fst (Next db1) <> fst (Next (set_recvdErr db1 None)).
Proof.
  cbv zeta. repeat split; try reflexivity; vm_compute; discriminate.
Qed.

(** C4 at the limit of 4: five bytes are refused, two are accepted, with
    raw leaves and without. *)
Lemma C4_size_limit_witness :
  (len (Some (str "ABCDE")) > BlockSizeLimit /\
   NewLeaf (builder false []) (Some (str "ABCDE")) =
   (None, Some ErrSizeLimitExceeded) /\
   NewLeaf (builder true []) (Some (str "ABCDE")) =
   (None, Some ErrSizeLimitExceeded)) /\
  (len (Some (str "AB")) <= BlockSizeLimit /\
   exists nd, NewLeaf (builder true []) (Some (str "AB")) = (Some nd, None)).
Proof.
  split.
  - split; [reflexivity|]. split.
    + apply (proj1 (C4_size_limit (builder false []) (Some (str "ABCDE")))).
      reflexivity.
    + apply (proj1 (C4_size_limit (builder true []) (Some (str "ABCDE")))).
      reflexivity.
  - split; [vm_compute; discriminate|].
    destruct (proj2 (C4_size_limit (builder true []) (Some (str "AB"))))
      as [Hok|(p & e & _ & Hp & _)].
    + vm_compute; discriminate.
    + exact Hok.
    + discriminate Hp.
Defined.

(** C5 at a builder without raw leaves, limit 4. *)
Lemma C5_wrapped_leaves_witness :
  let db := builder false [] in
  rawLeaves db = false /\
  0 <= BlockSizeLimit /\
  len (Some (str "AB")) <= BlockSizeLimit /\
  NewLeaf db None = (Some (NewUnixfsNode db), None) /\
  (exists nd,
     NewLeaf db (Some (str "AB")) = (Some nd, None) /\
     raw nd = false /\
     ufmt nd =
     Some {| Type_ := TRaw; Data := Some (str "AB"); blocksizes := [] |} /\
     payload nd = str "AB") /\
  NewLeaf db None <> NewLeaf db (Some []).
Proof.
  cbv zeta.
  destruct (C5_wrapped_leaves (builder false []) eq_refl)
    as (Hnil & Hsome & Hdiff).
  assert (Hpos : 0 <= BlockSizeLimit) by (vm_compute; discriminate).
  assert (Hlen : len (Some (str "AB")) <= BlockSizeLimit)
    by (vm_compute; discriminate).
  split; [reflexivity|]. split; [exact Hpos|]. split; [exact Hlen|].
  split; [exact (proj1 (Hnil Hpos))|].
  split; [exact (Hsome (str "AB") Hlen)|exact (Hdiff Hpos)].
Defined.

(** C6 at a new builder over the empty stream, whose splitter keeps
    answering with the end of the stream. *)
Lemma C6_Done_idempotent_witness :
  let db := builder false [] in
  EndIsFinal (spl db) /\
  fst (Done db) = true /\
  forall k,
    fst (Done (DoneTimes k db)) = fst (Done db) /\
    fst (Next (DoneTimes k db)) = fst (Next db) /\
    nextData (DoneTimes (Datatypes.S k) db) = nextData (snd (Done db)) /\
    recvdErr (DoneTimes (Datatypes.S k) db) = recvdErr (snd (Done db)).
Proof.
  cbv zeta.
  assert (Hfinal : EndIsFinal (spl (builder false [])))
    by (intros _; exact script_nil_AllEnd).
  split; [exact Hfinal|]. split; [reflexivity|].
  exact (proj2 (proj2 (C6_Done_idempotent (builder false []))) Hfinal).
Defined.

(** C6 as stated fails: over a splitter that reports the end of the
    stream and delivers a chunk afterwards, [Done] answers true and then
    false, and the chunk [Next] returns depends on the calls of [Done]
    made before. *)
Lemma C6_Done_answers_differ :
  let db := builder false resumes in
  fst (Done db) = true /\
  fst (Done (DoneTimes 1 db)) = false /\
  fst (Next db) = (None, None) /\
  fst (Next (DoneTimes 2 db)) = (Some (str "A"), None) /\
  ~ (forall k, fst (Done (DoneTimes k db)) = fst (Done db)).
Proof.
  cbv zeta. repeat (split; [reflexivity|]).
  intros Hall. specialize (Hall 1%nat). vm_compute in Hall. discriminate Hall.
Qed.

(** C7 at a new builder over the empty stream. *)
Lemma C7_clean_end_of_stream_witness :
  let db := builder false [] in
  Done db = (true, snd (Done db)) /\
  EndIsFinal (spl db) /\
  forall cs,
    fst (Next (afterAll cs (snd (Done db)))) = (None, None) /\
    fst (GetNextDataNode (afterAll cs (snd (Done db)))) = (None, None) /\
    fst (Done (afterAll cs (snd (Done db)))) = true.
Proof.
  cbv zeta.
  assert (Hfinal : EndIsFinal (spl (builder false [])))
    by (intros _; exact script_nil_AllEnd).
  split; [reflexivity|]. split; [exact Hfinal|].
  exact (C7_clean_end_of_stream (builder false [])
           (snd (Done (builder false []))) eq_refl Hfinal).
Defined.

(** C7 as stated fails: over a splitter that reports the end of the
    stream and delivers a chunk afterwards, [Done] answers true and the
    next call of [Next], or of [GetNextDataNode], returns the chunk. *)
Lemma C7_chunk_after_Done_true :
  let db := builder false resumes in
  fst (Done db) = true /\
  fst (Next (snd (Done db))) = (Some (str "A"), None) /\
  fst (Next (snd (Done db))) <> (None, None) /\
  fst (GetNextDataNode (snd (Done db))) <> (None, None).
Proof.
  cbv zeta. repeat split; try reflexivity; vm_compute; discriminate.
Qed.

(** C9 at a splitter that answers its first pull with the chunk AB and a
    read failure. *)
Lemma C9_chunk_with_failure_is_dropped_witness :
  let db := builder false chunkWithFailure in
  let db' := set_pull db None (Some readFailure) [chunk (str "CD")] in
  isEmpty db = true /\
  NextBytes (spl db) =
  ((Some (str "AB"), Some readFailure), [chunk (str "CD")]) /\
  readFailure <> EOF /\
  Next db = ((None, Some readFailure), db') /\
  Done db =
  (false,
   set_pull db (Some (str "AB")) (Some readFailure) [chunk (str "CD")]) /\
  Next (snd (Done db)) = ((None, Some readFailure), db') /\
  nextData db' = None /\
  GetNextDataNode db = ((None, Some readFailure), db') /\
  (forall cs, afterAll cs db' = db') /\
  GetNextDataNode db' = ((None, Some readFailure), db') /\
  (forall n, exists err, FillNodeLayer db' n = Returns (err, n, db')) /\
  (forall n, exists err db'', FillNodeLayer db n = Returns (err, n, db'')).
Proof.
  cbv zeta. split; [reflexivity|]. split; [reflexivity|].
  split; [discriminate|].
  apply (C9_chunk_with_failure_is_dropped (builder false chunkWithFailure)
           (str "AB") readFailure [chunk (str "CD")]);
    [reflexivity|reflexivity|discriminate].
Defined.

(** C10 at the first node of the example, which holds two children, the
    cap of the builder. *)
Lemma C10_full_node_untouched_witness :
  maxlinks (abc_builder false) <= NumChildren abc_first_node /\
  FillNodeLayer (abc_builder false) abc_first_node =
  Returns (None, abc_first_node, abc_builder false).
Proof.
  split; [vm_compute; discriminate|].
  apply C10_full_node_untouched. vm_compute; discriminate.
Defined.

End Examples.

(** * Further properties of the lookahead *)

Section LookaheadCalls.

Context {S : Type} `{Splitter S} `{Package}.

Implicit Types (db : @DagBuilderHelper S) (n : UnixfsNode).

(** [Next] leaves the lookahead without a chunk, and with the error the
    pull left. *)
Lemma Next_state db :
  nextData (snd (Next db)) = None /\
  recvdErr (snd (Next db)) = recvdErr (prepareNext db) /\
  spl (snd (Next db)) = spl (prepareNext db).
Proof.
  unfold Next. destruct (recvdErr (set_nextData (prepareNext db) None));
    cbn; auto.
Qed.

(** [GetNextDataNode] leaves the builder as [Next] does. *)
Lemma GetNextDataNode_state db :
  snd (GetNextDataNode db) = snd (Next db).
Proof.
  unfold GetNextDataNode. destruct (Next db) as [[d e] db1]. cbn.
  destruct e; [reflexivity|]. destruct d; reflexivity.
Qed.

(** On an empty lookahead [Done] pulls the splitter once, and answers
    true exactly when the answer is the end of the stream. *)
Lemma Done_empty db :
  isEmpty db = true ->
  fst (Done db) = isEnd (fst (NextBytes (spl db))) /\
  spl (snd (Done db)) = snd (NextBytes (spl db)).
Proof.
  intros Hem. rewrite Done_eq. cbn [fst snd].
  destruct (NextBytes (spl db)) as [[d e] s] eqn:Hp.
  rewrite (prepareNext_empty _ _ _ _ Hem Hp). cbn [fst snd].
  split; [|reflexivity].
  unfold isEmpty. cbn. destruct d; [reflexivity|].
  destruct e as [[]|]; reflexivity.
Qed.

(** X1.  On a builder just made by [New], [Done] pulls the splitter
    exactly once, and answers true exactly when the answer carries no
    chunk and no error other than [io.EOF]: an answer of nil with a nil
    error counts as the end of the stream, a non-nil chunk of length zero
    does not. *)
Theorem Done_on_new_builder (dbp : DagBuilderParams) (s : S) :
  fst (Done (New dbp s)) = isEnd (fst (NextBytes s)) /\
  spl (snd (Done (New dbp s))) = snd (NextBytes s) /\
  (fst (NextBytes s) = (None, None) -> fst (Done (New dbp s)) = true) /\
  (forall e, fst (NextBytes s) = (Some [], e) ->
             fst (Done (New dbp s)) = false).
Proof.
  destruct (Done_empty (New dbp s) eq_refl) as [Hd Hs].
  cbn [New spl] in Hd, Hs.
  split; [exact Hd|]. split; [exact Hs|]. rewrite Hd.
  split; [intros ->; reflexivity|intros e ->; reflexivity].
Qed.

(** X2.  Once [Done] has answered false, [Next] returns a chunk or an
    error, never nil with a nil error; it returns what it would have
    returned without the call of [Done], and it does not pull the
    splitter again. *)
Theorem Next_after_Done_false db db1 :
  Done db = (false, db1) ->
  fst (Next db1) <> (None, None) /\
  fst (Next db1) = fst (Next db) /\
  spl (snd (Next db1)) = spl db1.
Proof.
  rewrite Done_eq. intros Hd. injection Hd as Hfull <-.
  assert (Hn : Next (prepareNext db) = Next db).
  { unfold Next. rewrite (prepareNext_full _ Hfull). reflexivity. }
  rewrite Hn. split; [|split; [reflexivity|]].
  - unfold Next. unfold isEmpty in Hfull. cbn.
    destruct (recvdErr (prepareNext db)); [discriminate|].
    destruct (nextData (prepareNext db)); [discriminate|discriminate].
  - destruct (Next_state db) as (_ & _ & Hs). exact Hs.
Qed.

(** X3.  When the splitter answers a pull with a chunk and [io.EOF] at
    once, the chunk is delivered with a nil error: [Done] answers false
    and [Next] returns the chunk; the lookahead is empty afterwards, so
    the next call asks the splitter again. *)
Theorem chunk_with_EOF_is_delivered db c s :
  isEmpty db = true ->
  NextBytes (spl db) = ((Some c, Some EOF), s) ->
  Next db = ((Some c, None), set_pull db None None s) /\
  Done db = (false, set_pull db (Some c) None s) /\
  Next (snd (Done db)) = ((Some c, None), set_pull db None None s) /\
  isEmpty (snd (Next db)) = true.
Proof.
  intros Hem Hp.
  assert (Hprep : prepareNext db = set_pull db (Some c) None s)
    by (rewrite (prepareNext_empty _ _ _ _ Hem Hp); reflexivity).
  assert (Hn : Next db = ((Some c, None), set_pull db None None s))
    by (unfold Next; rewrite Hprep; reflexivity).
  assert (Hd : Done db = (false, set_pull db (Some c) None s))
    by (rewrite Done_eq, Hprep; reflexivity).
  split; [exact Hn|]. split; [exact Hd|].
  rewrite Hd, Hn. split; reflexivity.
Qed.

(** A call on the lookahead never stores [io.EOF] as the pending
    error. *)
Lemma after_not_EOF c db :
  recvdErr db <> Some EOF -> recvdErr (after c db) <> Some EOF.
Proof.
  intros Hne. pose proof (prepareNext_not_EOF _ Hne) as Hp.
  destruct c; cbn [after].
  - rewrite Done_eq. exact Hp.
  - destruct (Next_state db) as (_ & -> & _). exact Hp.
  - rewrite GetNextDataNode_state.
    destruct (Next_state db) as (_ & -> & _). exact Hp.
Qed.

(** X4.  [io.EOF] is never surfaced as an error: on a builder whose
    pending error is not [io.EOF] (any builder made by [New]), whatever
    the splitter answers and whatever calls of [Done], [Next] and
    [GetNextDataNode] have been made, [Next] does not return [io.EOF],
    and [io.EOF] is never the pending error. *)
Theorem Next_never_returns_EOF db :
  recvdErr db <> Some EOF ->
  forall cs,
    snd (fst (Next (afterAll cs db))) <> Some EOF /\
    recvdErr (afterAll cs db) <> Some EOF.
Proof.
  intros Hne cs. revert db Hne.
  induction cs as [|c cs IH]; intros db Hne.
  - cbn [afterAll fold_left]. split; [|exact Hne].
    pose proof (prepareNext_not_EOF _ Hne) as Hp.
    unfold Next. cbn.
    destruct (recvdErr (prepareNext db)) as [e|]; cbn; congruence.
  - cbn [afterAll fold_left]. apply IH, after_not_EOF, Hne.
Qed.

End LookaheadCalls.

(** * Further properties over scripted streams *)

Section ScriptedStreams.

Context `{Package}.

Implicit Types (db : @DagBuilderHelper (list response)) (n : UnixfsNode)
  (cs : list bytes) (tail : list response).

(** One call on the lookahead of a builder over a chunked stream. *)
Lemma after_ahead c db cs :
  ChunksAhead db cs ->
  ChunksAhead (after c db) (skipn (if takes c then 1 else 0) cs).
Proof.
  intros Ha. destruct c; cbn [after takes].
  - apply Done_ahead, Ha.
  - destruct cs; apply (Next_ahead _ _ Ha).
  - rewrite GetNextDataNode_state. destruct cs; apply (Next_ahead _ _ Ha).
Qed.

(** The answers taken by a sequence of calls, call by call. *)
Lemma consumed_cons c calls :
  consumed (c :: calls) = ((if takes c then 1 else 0) + consumed calls)%nat.
Proof. unfold consumed. cbn [filter]. destruct (takes c); reflexivity. Qed.

(** X5.  Over a stream cut into chunks, the lookahead hands the chunks
    out once each and in order, whatever calls are made: after any
    sequence of calls of [Done], [Next] and [GetNextDataNode], of which
    [k] are calls of [Next] or [GetNextDataNode], [Next] returns the
    chunk of index [k] with a nil error (nil once the chunks are over),
    and [Done] answers true exactly when [k] is at least the number of
    chunks.  Calls of [Done] neither skip nor repeat a chunk. *)
Theorem chunks_come_once_in_order db chunks :
  ChunksAhead db chunks ->
  forall calls,
    ChunksAhead (afterAll calls db) (skipn (consumed calls) chunks) /\
    fst (Next (afterAll calls db)) =
    (nth_error chunks (consumed calls), None) /\
    fst (Done (afterAll calls db)) = (length chunks <=? consumed calls)%nat.
Proof.
  intros Ha calls. revert db chunks Ha.
  induction calls as [|c calls IH]; intros db chunks Ha.
  - cbn [afterAll fold_left consumed filter length skipn].
    destruct (Next_ahead _ _ Ha) as [Hn _].
    destruct (Done_ahead _ _ Ha) as [Hd _].
    split; [exact Ha|]. split.
    + rewrite Hn. destruct chunks; reflexivity.
    + rewrite Hd. destruct chunks; reflexivity.
  - cbn [afterAll fold_left]. fold (afterAll calls (after c db)).
    rewrite consumed_cons.
    destruct (IH _ _ (after_ahead c _ _ Ha)) as (Ha' & Hn & Hd).
    rewrite skipn_skipn in Ha'. rewrite nth_error_skipn in Hn.
    rewrite length_skipn in Hd.
    rewrite (Nat.add_comm _ (consumed calls)).
    split; [exact Ha'|]. split.
    + rewrite Hn. f_equal. f_equal. lia.
    + rewrite Hd. destruct (takes c);
        destruct (length chunks - _ <=? consumed calls)%nat eqn:Hle;
        symmetry;
        [apply Nat.leb_le; apply Nat.leb_le in Hle; lia
        |apply Nat.leb_gt; apply Nat.leb_gt in Hle; lia
        |apply Nat.leb_le; apply Nat.leb_le in Hle; lia
        |apply Nat.leb_gt; apply Nat.leb_gt in Hle; lia].
Qed.

(** A builder over a chunked stream has nothing after its chunks. *)
Lemma ChunksAhead_Ahead db cs : ChunksAhead db cs <-> Ahead db cs [].
Proof.
  unfold ChunksAhead, Ahead.
  split; intros (He & rest & Hs & Hc); (split; [exact He|]); exists rest;
    rewrite app_nil_r in *; auto.
Qed.

(** With a chunk ahead, [Done] answers false and [GetNextDataNode] builds
    the leaf of that chunk, leaving the lookahead empty and the other
    chunks ahead. *)
Lemma GetNextDataNode_Ahead db c cs tail :
  Ahead db (c :: cs) tail ->
  exists db2,
    fst (Done db) = false /\
    GetNextDataNode (snd (Done db)) = (NewLeaf db2 (Some c), db2) /\
    Ahead db2 cs tail /\
    nextData db2 = None /\
    maxlinks db2 = maxlinks db /\
    batch db2 = batch db /\
    prefix db2 = prefix db.
Proof.
  intros (Herr & rest & Hspl & Hcs).
  destruct (prepareNext_frame db) as (_ & Hm & Hb & Hp).
  assert (Hprep : exists rest',
             nextData (prepareNext db) = Some c /\
             recvdErr (prepareNext db) = None /\
             spl (prepareNext db) = chunked rest' ++ tail /\ cs = rest').
  { unfold buffered in Hcs. destruct (nextData db) as [c'|] eqn:Hnd.
    - rewrite prepareNext_full by (unfold isEmpty; rewrite Hnd; reflexivity).
      injection Hcs as -> ->. exists rest. auto.
    - cbn in Hcs. subst rest.
      assert (Hem : isEmpty db = true)
        by (unfold isEmpty; rewrite Hnd, Herr; reflexivity).
      rewrite (prepareNext_empty db (Some c) None (chunked cs ++ tail) Hem)
        by (rewrite Hspl; reflexivity).
      exists cs. auto. }
  destruct Hprep as (rest' & Hnd & Hre & Hsp & <-).
  assert (Hfull : isEmpty (prepareNext db) = false)
    by (unfold isEmpty; rewrite Hnd; reflexivity).
  exists (set_nextData (prepareNext db) None).
  rewrite Done_eq. cbn [fst snd].
  split; [exact Hfull|]. split.
  { unfold GetNextDataNode, Next. rewrite (prepareNext_full _ Hfull).
    cbn. rewrite Hre, Hnd. reflexivity. }
  split.
  { split; [exact Hre|]. exists cs. split; [exact Hsp|reflexivity]. }
  cbn. auto.
Qed.

(** One turn of the loop of [FillNodeLayer] with a chunk ahead, room in
    the node and nothing failing: the leaf of the chunk is appended. *)
Lemma FillNodeLayer_loop_step fuel db n c cs tail :
  Ahead db (c :: cs) tail ->
  Reliable db ->
  len (Some c) <= BlockSizeLimit ->
  isInternal n = true ->
  NumChildren n < maxlinks db ->
  exists nd n1 db1,
    FillNodeLayer_loop (Datatypes.S fuel) db n =
    FillNodeLayer_loop fuel db1 n1 /\
    payload nd = c /\
    children n1 = children n ++ [nd] /\
    NumChildren n1 = NumChildren n + 1 /\
    isInternal n1 = true /\
    Ahead db1 cs tail /\
    nextData db1 = None /\
    Reliable db1 /\
    maxlinks db1 = maxlinks db.
Proof.
  intros Ha Hrel Hlen Hint Hlt.
  destruct (GetNextDataNode_Ahead _ _ _ _ Ha)
    as (db2 & Hd & Hget & Ha2 & Hnd2 & Hm2 & Hb2 & Hp2).
  assert (Hrel2 : Reliable db2) by exact (Reliable_frame _ _ Hb2 Hp2 Hrel).
  destruct (NewLeaf_reliable db2 c Hrel2 Hlen) as [nd Hleaf].
  destruct (AddChild_internal n nd db2 Hint)
    as (e & n1 & Hadd & He & Hint1 & Hch & Hnum).
  destruct (Batch_Add_reliable (batch db2) nd (proj1 Hrel2)) as [Hfst Hrest].
  exists nd, n1, (set_batch db2 (snd (Batch_Add (batch db2) nd))).
  split.
  { cbn [FillNodeLayer_loop].
    apply Z.ltb_lt in Hlt. rewrite Hlt.
    destruct (Done db) as [done db1]. cbn [fst snd] in Hd, Hget.
    subst done. cbn [negb]. rewrite Hget, Hleaf, Hadd.
    rewrite He, Hfst. reflexivity. }
  split; [exact (NewLeaf_payload _ _ _ Hleaf)|].
  do 3 (split; [assumption|]).
  split; [exact Ha2|]. split; [exact Hnd2|].
  split; [split; [exact Hrest|exact (proj2 Hrel2)]|exact Hm2].
Qed.

(** The loop of [FillNodeLayer] takes the chunks ahead one by one as long
    as the node has room and nothing fails. *)
Lemma FillNodeLayer_takes good : forall db n cs tail,
  Ahead db (good ++ cs) tail ->
  Reliable db ->
  WithinLimit good ->
  isInternal n = true ->
  (length good <= room db n)%nat ->
  exists n' db',
    FillNodeLayer db n = FillNodeLayer db' n' /\
    map payload (children n') = map payload (children n) ++ good /\
    NumChildren n' = NumChildren n + Z.of_nat (length good) /\
    isInternal n' = true /\
    Ahead db' cs tail /\
    Reliable db' /\
    maxlinks db' = maxlinks db.
Proof.
  induction good as [|c good IH]; intros db n cs tail Ha Hrel Hlim Hint Hroom.
  - exists n, db. cbn [length Z.of_nat app]. rewrite app_nil_r, Z.add_0_r.
    repeat (split; [solve [auto]|]). reflexivity.
  - unfold room in Hroom. cbn [length] in Hroom.
    inversion Hlim as [|? ? Hc Hgood]; subst.
    assert (Hlt : NumChildren n < maxlinks db) by lia.
    destruct (FillNodeLayer_loop_step
                (Datatypes.S (Z.to_nat (maxlinks db - NumChildren n) - 1))
                db n c (good ++ cs) tail Ha Hrel Hc Hint Hlt)
      as (nd & n1 & db1 & Hstep & Hpay & Hch & Hnum & Hint1 & Ha1 & _ &
          Hrel1 & Hm1).
    destruct (IH db1 n1 cs tail Ha1 Hrel1 Hgood Hint1)
      as (n' & db' & Hfill & Hp & Hn & Hint' & Ha' & Hrel' & Hm').
    { unfold room. rewrite Hm1, Hnum. lia. }
    exists n', db'. split.
    { rewrite <- Hfill. unfold FillNodeLayer. rewrite Hm1, Hnum.
      replace (Datatypes.S (Z.to_nat (maxlinks db - NumChildren n)))
        with (Datatypes.S
                (Datatypes.S (Z.to_nat (maxlinks db - NumChildren n) - 1)))
        by lia.
      rewrite Hstep. f_equal. lia. }
    split.
    { rewrite Hp, Hch, map_app, <- app_assoc. cbn. rewrite Hpay.
      reflexivity. }
    split; [rewrite Hn, Hnum; cbn [length]; lia|].
    repeat (split; [assumption|]). congruence.
Qed.

(** Nothing ahead means the lookahead is empty and the splitter is at
    what follows the chunks. *)
Lemma Ahead_nil db tail :
  Ahead db [] tail -> isEmpty db = true /\ spl db = tail.
Proof.
  intros (Herr & rest & Hspl & Hcs). unfold buffered in Hcs.
  unfold isEmpty. rewrite Herr.
  destruct (nextData db); [discriminate|].
  cbn in Hcs. subst rest. auto.
Qed.

(** [FillNodeLayer] over a chunked stream with nothing failing: it takes
    the first chunks that fit. *)
Lemma FillNodeLayer_fits db n cs :
  ChunksAhead db cs ->
  Reliable db ->
  WithinLimit (firstn (room db n) cs) ->
  isInternal n = true ->
  exists n' db',
    FillNodeLayer db n = Returns (None, n', db') /\
    map payload (children n') =
    map payload (children n) ++ firstn (room db n) cs /\
    NumChildren n' =
    NumChildren n + Z.of_nat (Nat.min (room db n) (length cs)) /\
    ChunksAhead db' (skipn (room db n) cs) /\
    Reliable db' /\
    maxlinks db' = maxlinks db.
Proof.
  intros Ha Hrel Hlim Hint.
  apply ChunksAhead_Ahead in Ha.
  rewrite <- (firstn_skipn (room db n) cs) in Ha.
  destruct (FillNodeLayer_takes _ db n _ [] Ha Hrel Hlim Hint)
    as (n' & db' & Hfill & Hp & Hn & Hint' & Ha' & Hrel' & Hm').
  { apply firstn_le_length. }
  rewrite length_firstn in Hn.
  apply ChunksAhead_Ahead in Ha'.
  unfold FillNodeLayer in Hfill. cbn [FillNodeLayer_loop] in Hfill.
  destruct (NumChildren n' <? maxlinks db') eqn:Hlt.
  - apply Z.ltb_lt in Hlt.
    assert (Hshort : (length cs <= room db n)%nat) by (unfold room in *; lia).
    rewrite (skipn_all2 _ Hshort) in *.
    destruct (Done_ahead _ _ Ha') as [Hd Hd'].
    pose proof (Done_maxlinks db') as Hm1.
    destruct (Done_frame db') as (_ & Hb1 & Hp1).
    destruct (Done db') as [done db'']. cbn [fst snd] in *. subst done.
    cbn [negb] in Hfill. exists n', db''.
    do 4 (split; [assumption|]).
    split; [exact (Reliable_frame _ _ Hb1 Hp1 Hrel')|congruence].
  - exists n', db'. auto 10.
Qed.

(** X6.  Over a stream cut into chunks, with a store and a hash function
    that do not fail, [FillNodeLayer] appends to a node that can take
    children the leaves of exactly the first chunks that fit, in order:
    as many as the node has room for, or all of them when they are fewer.
    The chunks beyond are left ahead, untouched; only the chunks taken
    need be within the block size limit. *)
Theorem FillNodeLayer_takes_what_fits db n cs :
  ChunksAhead db cs ->
  Reliable db ->
  WithinLimit (firstn (room db n) cs) ->
  isInternal n = true ->
  exists n' db',
    FillNodeLayer db n = Returns (None, n', db') /\
    map payload (children n') =
    map payload (children n) ++ firstn (room db n) cs /\
    NumChildren n' =
    NumChildren n + Z.of_nat (Nat.min (room db n) (length cs)) /\
    ChunksAhead db' (skipn (room db n) cs).
Proof.
  intros Ha Hrel Hlim Hint.
  destruct (FillNodeLayer_fits db n cs Ha Hrel Hlim Hint)
    as (n' & db' & Hfill & Hp & Hn & Ha' & _).
  exists n', db'. auto.
Qed.

(** X7.  A chunk over the block size limit stops [FillNodeLayer]: it
    returns [ErrSizeLimitExceeded], the node keeps the leaves of the
    chunks that came before (nothing is rolled back), and the chunk over
    the limit has been taken out of the lookahead: the chunks after it
    are the ones ahead. *)
Theorem FillNodeLayer_stops_at_oversize_chunk db n good big rest :
  ChunksAhead db (good ++ big :: rest) ->
  Reliable db ->
  WithinLimit good ->
  BlockSizeLimit < len (Some big) ->
  isInternal n = true ->
  (length good < room db n)%nat ->
  exists n' db',
    FillNodeLayer db n = Returns (Some ErrSizeLimitExceeded, n', db') /\
    map payload (children n') = map payload (children n) ++ good /\
    ChunksAhead db' rest.
Proof.
  intros Ha Hrel Hlim Hbig Hint Hroom.
  apply ChunksAhead_Ahead in Ha.
  destruct (FillNodeLayer_takes _ db n _ [] Ha Hrel Hlim Hint)
    as (n' & db' & Hfill & Hp & Hn & Hint' & Ha' & Hrel' & Hm'); [lia|].
  destruct (GetNextDataNode_Ahead _ _ _ _ Ha')
    as (db2 & Hd & Hget & Ha2 & _).
  exists n', db2. split; [|split; [exact Hp|apply ChunksAhead_Ahead, Ha2]].
  rewrite Hfill. unfold FillNodeLayer. cbn [FillNodeLayer_loop].
  assert (Hlt : (NumChildren n' <? maxlinks db') = true)
    by (apply Z.ltb_lt; unfold room in Hroom; lia).
  rewrite Hlt. destruct (Done db') as [done db1]. cbn [fst snd] in Hd, Hget.
  subst done. cbn [negb]. rewrite Hget.
  unfold NewLeaf.
  assert (Hgt : (len (Some big) >? BlockSizeLimit) = true)
    by (apply Z.gtb_gt; lia).
  rewrite Hgt. reflexivity.
Qed.

(** X8.  A read failure of the splitter stops [FillNodeLayer]: it returns
    the error of the splitter, the node keeps the leaves of the chunks
    delivered before the failure, and the error stays pending: every
    later call of [FillNodeLayer] on a node with room returns the same
    error, appends nothing and does not pull the splitter, which stays
    where the failing pull left it. *)
Theorem FillNodeLayer_stops_at_read_failure db n good d e more :
  Ahead db good ((d, Some e) :: more) ->
  e <> EOF ->
  Reliable db ->
  WithinLimit good ->
  isInternal n = true ->
  (length good < room db n)%nat ->
  exists n' db',
    FillNodeLayer db n = Returns (Some e, n', db') /\
    map payload (children n') = map payload (children n) ++ good /\
    recvdErr db' = Some e /\
    nextData db' = None /\
    spl db' = more /\
    forall m,
      FillNodeLayer db' m =
      Returns (if NumChildren m <? maxlinks db' then Some e else None,
               m, db').
Proof.
  intros Ha Hne Hrel Hlim Hint Hroom.
  rewrite <- (app_nil_r good) in Ha.
  destruct (FillNodeLayer_takes _ db n _ _ Ha Hrel Hlim Hint)
    as (n' & db' & Hfill & Hp & Hn & Hint' & Ha' & Hrel' & Hm'); [lia|].
  destruct (Ahead_nil _ _ Ha') as [Hem Hspl].
  assert (Hprep : prepareNext db' = set_pull db' d (Some e) more).
  { rewrite (prepareNext_empty db' d (Some e) more Hem)
      by (rewrite Hspl; reflexivity).
    destruct e; try congruence; reflexivity. }
  exists n', (set_pull db' None (Some e) more).
  split.
  { rewrite Hfill. unfold FillNodeLayer. cbn [FillNodeLayer_loop].
    assert (Hlt : (NumChildren n' <? maxlinks db') = true)
      by (apply Z.ltb_lt; unfold room in Hroom; lia).
    rewrite Hlt, Done_eq, Hprep.
    replace (isEmpty (set_pull db' d (Some e) more)) with false
      by (unfold isEmpty; cbn; destruct d; reflexivity).
    cbn [negb]. unfold GetNextDataNode.
    rewrite Next_error with (e := e) by reflexivity. reflexivity. }
  split; [exact Hp|]. do 3 (split; [reflexivity|]).
  intros m. apply (FillNodeLayer_pending _ e); reflexivity.
Qed.

(** The caller's loop over a chunked stream with nothing failing: the
    nodes it fills. *)
Lemma fillLayers_layout fuel : forall db cs,
  ChunksAhead db cs ->
  Reliable db ->
  WithinLimit cs ->
  1 <= maxlinks db ->
  (length cs < fuel)%nat ->
  exists ns db',
    fillLayers fuel db = Returns (None, ns, db') /\
    (cs = [] -> ns = []) /\
    Forall (fun n => 1 <= NumChildren n <= maxlinks db) ns /\
    Forall (fun n => NumChildren n = maxlinks db) (removelast ns).
Proof.
  induction fuel as [|fuel IH]; intros db cs Ha Hrel Hlim Hml Hfuel; [lia|].
  cbn [fillLayers].
  destruct (Done_ahead _ _ Ha) as [Hd Ha1].
  pose proof (Done_maxlinks db) as Hm1.
  destruct (Done_frame db) as (_ & Hb1 & Hp1).
  destruct (Done db) as [done db1]. cbn [fst snd] in *. subst done.
  destruct cs as [|c cs].
  { exists [], db1. repeat split; constructor. }
  set (n0 := NewUnixfsNode db1).
  assert (Hroom : room db1 n0 = Z.to_nat (maxlinks db)).
  { unfold room. rewrite Hm1. change (NumChildren n0) with 0.
    f_equal. lia. }
  assert (Hparts : WithinLimit (firstn (room db1 n0) (c :: cs)) /\
                   WithinLimit (skipn (room db1 n0) (c :: cs))).
  { unfold WithinLimit in *.
    rewrite <- (firstn_skipn (room db1 n0) (c :: cs)) in Hlim.
    apply Forall_app in Hlim. exact Hlim. }
  destruct Hparts as [Hfirst Hrest].
  destruct (FillNodeLayer_fits db1 n0 (c :: cs) Ha1
              (Reliable_frame _ _ Hb1 Hp1 Hrel) Hfirst eq_refl)
    as (n' & db2 & Hfill & _ & Hn & Ha2 & Hrel2 & Hm2).
  change (NumChildren n0) with 0 in Hn. rewrite Hroom in *.
  rewrite Hfill.
  destruct (IH db2 _ Ha2 Hrel2 Hrest) as (ns & db3 & Hrec & Hnil & Hall & Hfull).
  { congruence. }
  { rewrite length_skipn. cbn [length] in *. lia. }
  rewrite Hrec. exists (n' :: ns), db3.
  split; [reflexivity|]. split; [discriminate|].
  split.
  { constructor; [cbn [length] in Hn; lia|].
    rewrite Hm2, Hm1 in Hall. exact Hall. }
  destruct ns as [|m ns]; [constructor|].
  change (removelast (n' :: m :: ns)) with (n' :: removelast (m :: ns)).
  constructor; [|rewrite Hm2, Hm1 in Hfull; exact Hfull].
  assert (Hlong : (Z.to_nat (maxlinks db) < length (c :: cs))%nat).
  { destruct (Nat.lt_ge_cases (Z.to_nat (maxlinks db)) (length (c :: cs)))
      as [Hlt|Hge]; [exact Hlt|].
    rewrite (skipn_all2 _ Hge) in Hnil. discriminate (Hnil eq_refl). }
  lia.
Qed.

(** X11.  Over a stream cut into chunks within the block size limit, with
    nothing failing and at least one link allowed per node, filling new
    nodes one after the other until [Done] answers true ends without an
    error; every node filled holds at least one child and at most
    [maxlinks], all nodes but the last hold exactly [maxlinks] (only the
    last node may be partly filled), and an empty stream fills no node. *)
Theorem successive_layers_are_full db chunks :
  ChunksAhead db chunks ->
  Reliable db ->
  WithinLimit chunks ->
  1 <= maxlinks db ->
  exists ns db',
    fillLayers (Datatypes.S (length chunks)) db = Returns (None, ns, db') /\
    (chunks = [] -> ns = []) /\
    Forall (fun n => 1 <= NumChildren n <= maxlinks db) ns /\
    Forall (fun n => NumChildren n = maxlinks db) (removelast ns).
Proof.
  intros Ha Hrel Hlim Hml.
  apply fillLayers_layout; auto.
Qed.

End ScriptedStreams.

(** * Further properties of the layer filler *)

Section FillerInvariants.

Context {S : Type} `{Splitter S} `{Package}.

Implicit Types (db : @DagBuilderHelper S) (n : UnixfsNode).

(** The leaf [NewLeaf] builds for a non-nil slice. *)
Lemma NewLeaf_StreamLeaf db c nd :
  NewLeaf db (Some c) = (Some nd, None) -> StreamLeaf (rawLeaves db) nd.
Proof.
  unfold NewLeaf, NewRawNodeWPrefix, StreamLeaf.
  destruct (len (Some c) >? BlockSizeLimit) eqn:Hgt; [discriminate|].
  assert (Hlen : Z.of_nat (length c) <= BlockSizeLimit).
  { destruct (Z.gtb_spec (len (Some c)) BlockSizeLimit) as [|Hle];
      [discriminate|exact Hle]. }
  destruct (rawLeaves db).
  - destruct (prefix db) as [p|].
    + destruct (sumError (Some c) p); [discriminate|].
      intros Heq. injection Heq as <-. cbn. auto.
    + intros Heq. injection Heq as <-. cbn. auto.
  - intros Heq. injection Heq as <-. cbn. auto.
Qed.

(** The calls on the lookahead leave the configuration alone. *)
Lemma Next_config db :
  rawLeaves (snd (Next db)) = rawLeaves db /\
  maxlinks (snd (Next db)) = maxlinks db /\
  prefix (snd (Next db)) = prefix db.
Proof.
  destruct (prepareNext_frame db) as (Hr & Hm & _ & Hp).
  unfold Next. destruct (recvdErr (set_nextData (prepareNext db) None));
    cbn; auto.
Qed.

Lemma Done_config db :
  rawLeaves (snd (Done db)) = rawLeaves db /\
  maxlinks (snd (Done db)) = maxlinks db /\
  prefix (snd (Done db)) = prefix db.
Proof.
  destruct (prepareNext_frame db) as (Hr & Hm & _ & Hp).
  rewrite Done_eq. cbn. auto.
Qed.

(** The node [GetNextDataNode] returns is the leaf of a non-nil slice. *)
Lemma GetNextDataNode_StreamLeaf db nd db' :
  GetNextDataNode db = ((Some nd, None), db') ->
  StreamLeaf (rawLeaves db) nd.
Proof.
  destruct (Next_config db) as (Hr & _).
  unfold GetNextDataNode. destruct (Next db) as [[d e] db1]. cbn in Hr.
  destruct e; [discriminate|]. destruct d as [c|]; [|discriminate].
  intros Heq. injection Heq as Hleaf _. rewrite <- Hr.
  exact (NewLeaf_StreamLeaf _ c _ Hleaf).
Qed.

(** What a call of [AddChild] that returns has done. *)
Lemma AddChild_returns n child db e n1 db1 :
  AddChild n child db = Returns (e, n1, db1) ->
  exists c,
    child = Some c /\
    children n1 = children n ++ [c] /\
    NumChildren n1 = NumChildren n + 1 /\
    rawLeaves db1 = rawLeaves db /\
    maxlinks db1 = maxlinks db /\
    prefix db1 = prefix db.
Proof.
  unfold AddChild, children, NumChildren.
  destruct child as [c|]; [|discriminate].
  destruct (node n) as [p|]; [|discriminate].
  destruct (ufmt n) as [f|]; [|discriminate].
  destruct (Batch_Add (batch db) c) as [e' b].
  intros Heq. injection Heq as <- <- <-. exists c. cbn.
  rewrite map_app, length_app, Nat2Z.inj_add. cbn.
  repeat (split; [reflexivity|]). reflexivity.
Qed.

(** What the loop of [FillNodeLayer] has done when it returns, on any
    node and over any splitter. *)
Lemma FillNodeLayer_loop_inv fuel : forall db n err n' db',
  FillNodeLayer_loop fuel db n = Returns (err, n', db') ->
  (exists new,
     children n' = children n ++ new /\
     Forall (StreamLeaf (rawLeaves db)) new) /\
  (rawLeaves db' = rawLeaves db /\
   maxlinks db' = maxlinks db /\
   prefix db' = prefix db) /\
  (err = None -> NumChildren n' < maxlinks db' ->
   exists db0, Done db0 = (true, db')).
Proof.
  induction fuel as [|fuel IH]; intros db n err n' db' Hrun; [discriminate|].
  cbn [FillNodeLayer_loop] in Hrun.
  destruct (NumChildren n <? maxlinks db) eqn:Hlt.
  2:{ injection Hrun as <- <- <-. apply Z.ltb_ge in Hlt.
      split; [exists []; rewrite app_nil_r; auto|].
      split; [auto|]. intros _ Hroom. lia. }
  destruct (Done_config db) as (Hr1 & Hm1 & Hp1).
  destruct (Done db) as [done db1] eqn:Hdone. cbn [snd] in Hr1, Hm1, Hp1.
  destruct done; cbn [negb] in Hrun.
  { injection Hrun as <- <- <-.
    split; [exists []; rewrite app_nil_r; auto|].
    split; [auto|]. intros _ _. exists db. exact Hdone. }
  pose proof (GetNextDataNode_state db1) as Hst.
  destruct (Next_config db1) as (Hr2 & Hm2 & Hp2). rewrite <- Hst in *.
  destruct (GetNextDataNode db1) as [[child e] db2] eqn:Hget.
  cbn [snd] in Hr2, Hm2, Hp2.
  destruct e as [e|].
  { injection Hrun as <- <- <-.
    split; [exists []; rewrite app_nil_r; auto|].
    split; [repeat split; congruence|]. discriminate. }
  destruct (AddChild n child db2) as [[[e n1] db3]| |] eqn:Hadd;
    try discriminate.
  destruct (AddChild_returns _ _ _ _ _ _ Hadd)
    as (c & -> & Hch & _ & Hr3 & Hm3 & Hp3).
  assert (Hleaf : StreamLeaf (rawLeaves db) c).
  { rewrite <- Hr1. exact (GetNextDataNode_StreamLeaf _ _ _ Hget). }
  destruct e as [e|].
  { injection Hrun as <- <- <-.
    split; [exists [c]; auto|].
    split; [repeat split; congruence|]. discriminate. }
  destruct (IH _ _ _ _ _ Hrun) as ([new [Hnew Hall]] & (Hr & Hm & Hp) & Hexit).
  split.
  { exists (c :: new). rewrite Hnew, Hch, <- app_assoc.
    split; [reflexivity|]. constructor; [exact Hleaf|].
    replace (rawLeaves db) with (rawLeaves db3) by congruence. exact Hall. }
  split; [repeat split; congruence|exact Hexit].
Qed.

(** X9.  Whenever [FillNodeLayer] returns, with nil or with an error,
    over any splitter and on any node, it has only appended children
    after the ones the node held, and every child it appended is a leaf
    of the stream: within the block size limit and without children, a
    bare raw block when raw leaves are configured, an envelope tagged
    [TRaw] otherwise (never the [TFile] node [NewLeaf] builds for nil).
    It has not changed [rawLeaves], [maxlinks] or [prefix]. *)
Theorem FillNodeLayer_appends_stream_leaves db n err n' db' :
  FillNodeLayer db n = Returns (err, n', db') ->
  (exists new,
     children n' = children n ++ new /\
     Forall (StreamLeaf (rawLeaves db)) new) /\
  rawLeaves db' = rawLeaves db /\
  maxlinks db' = maxlinks db /\
  prefix db' = prefix db.
Proof.
  intros Hrun. unfold FillNodeLayer in Hrun.
  destruct (FillNodeLayer_loop_inv _ _ _ _ _ _ Hrun) as (Hnew & Hcfg & _).
  split; [exact Hnew|exact Hcfg].
Qed.

(** Pulls add up. *)
Lemma pulls_add a : forall k (s : S),
  pulls k (pulls a s) = pulls (a + k) s.
Proof.
  induction a as [|a IH]; intros k s; [reflexivity|].
  cbn [pulls Nat.add]. apply IH.
Qed.

(** The splitter after [prepareNext]: pulled once when the lookahead was
    empty, left alone otherwise. *)
Lemma prepareNext_pulls db :
  spl (prepareNext db) = pulls (if isEmpty db then 1 else 0) (spl db).
Proof.
  destruct (isEmpty db) eqn:Hem.
  - destruct (NextBytes (spl db)) as [[d e] s] eqn:Hp.
    rewrite (prepareNext_empty _ _ _ _ Hem Hp). cbn. rewrite Hp. reflexivity.
  - rewrite (prepareNext_full _ Hem). reflexivity.
Qed.

(** When [GetNextDataNode] returns without an error after [Done] answered
    false, the lookahead is empty and the splitter has not been pulled. *)
Lemma GetNextDataNode_empties db db1 child db2 :
  Done db = (false, db1) ->
  GetNextDataNode db1 = ((child, None), db2) ->
  isEmpty db2 = true /\ spl db2 = spl db1.
Proof.
  rewrite Done_eq. intros Hd. injection Hd as Hfull <-.
  intros Hget. pose proof (GetNextDataNode_state (prepareNext db)) as Hst.
  rewrite Hget in Hst. cbn [snd] in Hst. subst db2.
  unfold GetNextDataNode, Next in Hget.
  rewrite (prepareNext_full _ Hfull) in Hget. cbn in Hget.
  unfold Next. rewrite (prepareNext_full _ Hfull). cbn.
  destruct (recvdErr (prepareNext db)) as [e|] eqn:He; [discriminate|].
  cbn. unfold isEmpty. cbn. rewrite He. auto.
Qed.

(** [AddChild] leaves the lookahead and the splitter alone. *)
Lemma AddChild_lookahead n child db e n1 db1 :
  AddChild n child db = Returns (e, n1, db1) ->
  isEmpty db1 = isEmpty db /\ spl db1 = spl db.
Proof.
  unfold AddChild.
  destruct child as [c|]; [|discriminate].
  destruct (node n) as [p|]; [|discriminate].
  destruct (ufmt n) as [f|]; [|discriminate].
  destruct (Batch_Add (batch db) c) as [e' b].
  intros Heq. injection Heq as <- <- <-. auto.
Qed.

(** The pulls the loop of [FillNodeLayer] has made when it returns nil
    with room left in the node: one for each child it appended, one more
    when the lookahead was empty at the start, and the last of them was
    answered with the end of the stream. *)
Lemma FillNodeLayer_loop_pulls fuel : forall db n n' db',
  FillNodeLayer_loop fuel db n = Returns (None, n', db') ->
  NumChildren n' < maxlinks db' ->
  exists new k,
    children n' = children n ++ new /\
    Datatypes.S k = (length new + (if isEmpty db then 1 else 0))%nat /\
    isEnd (fst (NextBytes (pulls k (spl db)))) = true /\
    spl db' = pulls (Datatypes.S k) (spl db) /\
    isEmpty db' = true.
Proof.
  induction fuel as [|fuel IH]; intros db n n' db' Hrun Hroom;
    [discriminate|].
  cbn [FillNodeLayer_loop] in Hrun.
  destruct (NumChildren n <? maxlinks db) eqn:Hlt.
  2:{ injection Hrun as <- <-. apply Z.ltb_ge in Hlt. lia. }
  destruct (Done db) as [done db1] eqn:Hdone.
  destruct done; cbn [negb] in Hrun.
  { injection Hrun as <- <-.
    destruct (Done_true _ _ Hdone) as (Hem & Hend & Hem' & Hspl).
    exists [], O. rewrite Hem, app_nil_r. cbn [pulls length Nat.add].
    auto. }
  destruct (GetNextDataNode db1) as [[child e] db2] eqn:Hget.
  destruct e as [e|]; [discriminate|].
  destruct (GetNextDataNode_empties _ _ _ _ Hdone Hget) as [Hem2 Hspl2].
  destruct (AddChild n child db2) as [[[e n1] db3]| |] eqn:Hadd;
    try discriminate.
  destruct e as [e|]; [discriminate|].
  destruct (AddChild_returns _ _ _ _ _ _ Hadd) as (c & -> & Hch & _).
  destruct (AddChild_lookahead _ _ _ _ _ _ Hadd) as [Hem3 Hspl3].
  destruct (IH _ _ _ _ Hrun Hroom) as (new & k & Hnew & Hk & Hend & Hspl & Hem).
  rewrite Hem3, Hem2 in Hk.
  assert (Hs : spl db3 = pulls (if isEmpty db then 1 else 0) (spl db)).
  { rewrite Hspl3, Hspl2. rewrite Done_eq in Hdone.
    injection Hdone as _ <-. apply prepareNext_pulls. }
  rewrite Hs, pulls_add in Hend, Hspl.
  exists (c :: new), ((if isEmpty db then 1 else 0) + k)%nat.
  split; [rewrite Hnew, Hch, <- app_assoc; reflexivity|].
  split; [cbn [length]; lia|].
  split; [exact Hend|]. split; [|exact Hem].
  rewrite Hspl. f_equal. lia.
Qed.

(** X10.  When [FillNodeLayer] returns nil and the node then holds fewer
    than [maxlinks] children, the stream has ended at the splitter: the
    run pulled the splitter once for each child it appended, and once
    more when the lookahead was empty at the start; the last of these
    pulls was answered with the end of the stream (no chunk, and no error
    or [io.EOF]), the splitter is where that pull left it, and the
    lookahead holds neither a chunk nor an error.  A nil return thus
    means the node is full or the stream has ended. *)
Theorem FillNodeLayer_nil_means_full_or_done db n n' db' :
  FillNodeLayer db n = Returns (None, n', db') ->
  NumChildren n' < maxlinks db' ->
  exists new k,
    children n' = children n ++ new /\
    Datatypes.S k = (length new + (if isEmpty db then 1 else 0))%nat /\
    isEnd (fst (NextBytes (pulls k (spl db)))) = true /\
    spl db' = pulls (Datatypes.S k) (spl db) /\
    nextData db' = None /\
    recvdErr db' = None.
Proof.
  intros Hrun Hroom. unfold FillNodeLayer in Hrun.
  destruct (FillNodeLayer_loop_pulls _ _ _ _ _ Hrun Hroom)
    as (new & k & Hnew & Hk & Hend & Hspl & Hem).
  exists new, k. do 4 (split; [assumption|]).
  apply isEmpty_fields, Hem.
Qed.

End FillerInvariants.

(** * The further properties at concrete builders *)

Section FurtherExamples.

#[local] Existing Instance pkg4.

(** The builders of the examples are reliable. *)
Lemma builder_Reliable rawLeaves s : Reliable (builder rawLeaves s).
Proof. split; [constructor|intros p d Hp; discriminate Hp]. Qed.

(** X1 at a splitter that answers nil with a nil error, and at one that
    delivers an empty chunk. *)
Lemma Done_on_new_builder_witness :
  fst (NextBytes answersNilNil) = (None, None) /\
  fst (Done (New (params2 false) answersNilNil)) = true /\
  fst (NextBytes deliversEmptyChunk) = (Some [], None) /\
  fst (Done (New (params2 false) deliversEmptyChunk)) = false.
Proof.
  split; [reflexivity|]. split.
  - apply (proj1 (proj2 (proj2
             (Done_on_new_builder (params2 false) answersNilNil)))).
    reflexivity.
  - split; [reflexivity|].
    apply (proj2 (proj2 (proj2
             (Done_on_new_builder (params2 false) deliversEmptyChunk)))
             None).
    reflexivity.
Defined.

(** X2 at the builder of the example. *)
Lemma Next_after_Done_false_witness :
  let db := abc_builder false in
  Done db = (false, snd (Done db)) /\
  fst (Next (snd (Done db))) <> (None, None) /\
  fst (Next (snd (Done db))) = fst (Next db) /\
  spl (snd (Next (snd (Done db)))) = spl (snd (Done db)).
Proof.
  cbv zeta. split; [reflexivity|].
  apply (Next_after_Done_false (abc_builder false)). reflexivity.
Defined.

(** X3 at a splitter that delivers its only chunk with [io.EOF]. *)
Lemma chunk_with_EOF_is_delivered_witness :
  let db := builder false lastChunkWithEOF in
  isEmpty db = true /\
  NextBytes (spl db) = ((Some (str "CD"), Some EOF), []) /\
  Next db = ((Some (str "CD"), None), set_pull db None None []) /\
  Done db = (false, set_pull db (Some (str "CD")) None []) /\
  Next (snd (Done db)) = ((Some (str "CD"), None), set_pull db None None []) /\
  isEmpty (snd (Next db)) = true.
Proof.
  cbv zeta. split; [reflexivity|]. split; [reflexivity|].
  apply (chunk_with_EOF_is_delivered (builder false lastChunkWithEOF));
    reflexivity.
Defined.

(** X4 at a splitter that reports [io.EOF] and delivers a chunk
    afterwards. *)
Lemma Next_never_returns_EOF_witness :
  let db := builder false resumes in
  recvdErr db <> Some EOF /\
  forall cs,
    snd (fst (Next (afterAll cs db))) <> Some EOF /\
    recvdErr (afterAll cs db) <> Some EOF.
Proof.
  cbv zeta. split; [discriminate|].
  apply (Next_never_returns_EOF (builder false resumes)). discriminate.
Defined.

(** X5 at the builder of the example. *)
Lemma chunks_come_once_in_order_witness :
  let db := abc_builder false in
  ChunksAhead db abc_chunks /\
  forall calls,
    ChunksAhead (afterAll calls db) (skipn (consumed calls) abc_chunks) /\
    fst (Next (afterAll calls db)) =
    (nth_error abc_chunks (consumed calls), None) /\
    fst (Done (afterAll calls db)) = (3 <=? consumed calls)%nat.
Proof.
  cbv zeta.
  assert (Ha : ChunksAhead (abc_builder false) abc_chunks)
    by (split; [reflexivity|exists abc_chunks; split; reflexivity]).
  split; [exact Ha|].
  exact (chunks_come_once_in_order (abc_builder false) abc_chunks Ha).
Defined.

(** X6 at the builder of the example: two of the three chunks fit. *)
Lemma FillNodeLayer_takes_what_fits_witness :
  let db := abc_builder false in
  let n := NewUnixfsNode db in
  ChunksAhead db abc_chunks /\
  Reliable db /\
  WithinLimit (firstn (room db n) abc_chunks) /\
  isInternal n = true /\
  exists n' db',
    FillNodeLayer db n = Returns (None, n', db') /\
    map payload (children n') = [str "ABCD"; str "EFGH"] /\
    NumChildren n' = 2 /\
    ChunksAhead db' [str "IJ"].
Proof.
  cbv zeta.
  assert (Ha : ChunksAhead (abc_builder false) abc_chunks)
    by (split; [reflexivity|exists abc_chunks; split; reflexivity]).
  assert (Hlim : WithinLimit
                   (firstn (room (abc_builder false)
                              (NewUnixfsNode (abc_builder false)))
                      abc_chunks))
    by (repeat constructor; vm_compute; discriminate).
  split; [exact Ha|]. split; [apply builder_Reliable|].
  split; [exact Hlim|]. split; [reflexivity|].
  exact (FillNodeLayer_takes_what_fits (abc_builder false)
           (NewUnixfsNode (abc_builder false)) abc_chunks Ha
           (builder_Reliable _ _) Hlim eq_refl).
Defined.

(** X7 at a stream whose second chunk has five bytes, limit 4. *)
Lemma FillNodeLayer_stops_at_oversize_chunk_witness :
  let db := builder false (chunked oversize_chunks) in
  let n := NewUnixfsNode db in
  ChunksAhead db ([str "AB"] ++ str "ABCDE" :: [str "CD"]) /\
  Reliable db /\
  WithinLimit [str "AB"] /\
  BlockSizeLimit < len (Some (str "ABCDE")) /\
  isInternal n = true /\
  (length [str "AB"] < room db n)%nat /\
  exists n' db',
    FillNodeLayer db n = Returns (Some ErrSizeLimitExceeded, n', db') /\
    map payload (children n') = map payload (children n) ++ [str "AB"] /\
    ChunksAhead db' [str "CD"].
Proof.
  cbv zeta.
  assert (Ha : ChunksAhead (builder false (chunked oversize_chunks))
                 ([str "AB"] ++ str "ABCDE" :: [str "CD"]))
    by (split; [reflexivity|exists oversize_chunks; split; reflexivity]).
  assert (Hlim : WithinLimit [str "AB"])
    by (repeat constructor; vm_compute; discriminate).
  assert (Hbig : BlockSizeLimit < len (Some (str "ABCDE")))
    by reflexivity.
  assert (Hroom : (length [str "AB"] <
                   room (builder false (chunked oversize_chunks))
                     (NewUnixfsNode
                        (builder false (chunked oversize_chunks))))%nat)
    by (vm_compute; lia).
  split; [exact Ha|]. split; [apply builder_Reliable|].
  split; [exact Hlim|]. split; [exact Hbig|]. split; [reflexivity|].
  split; [exact Hroom|].
  exact (FillNodeLayer_stops_at_oversize_chunk
           (builder false (chunked oversize_chunks))
           (NewUnixfsNode (builder false (chunked oversize_chunks)))
           [str "AB"] (str "ABCDE") [str "CD"] Ha
           (builder_Reliable _ _) Hlim Hbig eq_refl Hroom).
Defined.

(** X8 at a splitter that delivers AB, fails, and would deliver CD. *)
Lemma FillNodeLayer_stops_at_read_failure_witness :
  let db := builder false failsMidStream in
  let n := NewUnixfsNode db in
  Ahead db [str "AB"] ((None, Some readFailure) :: [chunk (str "CD")]) /\
  readFailure <> EOF /\
  Reliable db /\
  WithinLimit [str "AB"] /\
  isInternal n = true /\
  (length [str "AB"] < room db n)%nat /\
  exists n' db',
    FillNodeLayer db n = Returns (Some readFailure, n', db') /\
    map payload (children n') = map payload (children n) ++ [str "AB"] /\
    recvdErr db' = Some readFailure /\
    nextData db' = None /\
    spl db' = [chunk (str "CD")] /\
    forall m,
      FillNodeLayer db' m =
      Returns (if NumChildren m <? maxlinks db' then Some readFailure
               else None, m, db').
Proof.
  cbv zeta.
  assert (Ha : Ahead (builder false failsMidStream) [str "AB"]
                 ((None, Some readFailure) :: [chunk (str "CD")]))
    by (split; [reflexivity|exists [str "AB"]; split; reflexivity]).
  assert (Hne : readFailure <> EOF) by discriminate.
  assert (Hlim : WithinLimit [str "AB"])
    by (repeat constructor; vm_compute; discriminate).
  assert (Hroom : (length [str "AB"] <
                   room (builder false failsMidStream)
                     (NewUnixfsNode (builder false failsMidStream)))%nat)
    by (vm_compute; lia).
  split; [exact Ha|]. split; [exact Hne|]. split; [apply builder_Reliable|].
  split; [exact Hlim|]. split; [reflexivity|]. split; [exact Hroom|].
  exact (FillNodeLayer_stops_at_read_failure
           (builder false failsMidStream)
           (NewUnixfsNode (builder false failsMidStream))
           [str "AB"] None readFailure [chunk (str "CD")] Ha Hne
           (builder_Reliable _ _) Hlim eq_refl Hroom).
Defined.

(** X9 at the builder of the example, with raw leaves: the two children
    are bare raw blocks. *)
Lemma FillNodeLayer_appends_stream_leaves_witness :
  let db := abc_builder true in
  let n := NewUnixfsNode db in
  exists err n' db',
    FillNodeLayer db n = Returns (err, n', db') /\
    (exists new,
       children n' = children n ++ new /\
       Forall (StreamLeaf (rawLeaves db)) new) /\
    rawLeaves db' = rawLeaves db /\
    maxlinks db' = maxlinks db /\
    prefix db' = prefix db.
Proof.
  cbv zeta. do 3 eexists. split; [vm_compute; reflexivity|].
  eapply (FillNodeLayer_appends_stream_leaves (abc_builder true)
            (NewUnixfsNode (abc_builder true))).
  vm_compute. reflexivity.
Defined.

(** X10 at a stream of one chunk and two links per node: the node is left
    with one child after two pulls, the second answered with the end of
    the stream. *)
Lemma FillNodeLayer_nil_means_full_or_done_witness :
  let db := builder false (chunked [str "AB"]) in
  let n := NewUnixfsNode db in
  exists n' db',
    FillNodeLayer db n = Returns (None, n', db') /\
    NumChildren n' < maxlinks db' /\
    exists new k,
      children n' = children n ++ new /\
      Datatypes.S k = (length new + (if isEmpty db then 1 else 0))%nat /\
      isEnd (fst (NextBytes (pulls k (spl db)))) = true /\
      spl db' = pulls (Datatypes.S k) (spl db) /\
      nextData db' = None /\
      recvdErr db' = None.
Proof.
  cbv zeta. do 2 eexists. split; [vm_compute; reflexivity|].
  split; [vm_compute; reflexivity|].
  eapply (FillNodeLayer_nil_means_full_or_done
            (builder false (chunked [str "AB"]))
            (NewUnixfsNode (builder false (chunked [str "AB"])))).
  - vm_compute. reflexivity.
  - vm_compute. reflexivity.
Defined.

(** X11 at the builder of the example: two nodes, the first full. *)
Lemma successive_layers_are_full_witness :
  let db := abc_builder false in
  ChunksAhead db abc_chunks /\
  Reliable db /\
  WithinLimit abc_chunks /\
  1 <= maxlinks db /\
  exists ns db',
    fillLayers 4 db = Returns (None, ns, db') /\
    (abc_chunks = [] -> ns = []) /\
    Forall (fun n => 1 <= NumChildren n <= maxlinks db) ns /\
    Forall (fun n => NumChildren n = maxlinks db) (removelast ns).
Proof.
  cbv zeta.
  assert (Ha : ChunksAhead (abc_builder false) abc_chunks)
    by (split; [reflexivity|exists abc_chunks; split; reflexivity]).
  assert (Hlim : WithinLimit abc_chunks)
    by (repeat constructor; vm_compute; discriminate).
  assert (Hml : 1 <= maxlinks (abc_builder false))
    by (vm_compute; discriminate).
  split; [exact Ha|]. split; [apply builder_Reliable|].
  split; [exact Hlim|]. split; [exact Hml|].
  exact (successive_layers_are_full (abc_builder false) abc_chunks Ha
           (builder_Reliable _ _) Hlim Hml).
Defined.

End FurtherExamples.
